(** * Heatwave forecasting service: the HTTP adapter of [app.py]

    A shallow embedding of the two route handlers of [app.py],
    [predict_heatwave] (POST /heatwave) and [get_historical_data]
    (GET /api/historical), together with the properties of their
    request validation and response shaping.

    The handlers talk to four collaborators that live outside the file:
    the web framework (request body, JSON reader, [jsonify]), the forecast
    model, the file system and the table library.  Their answers are the
    fields of the record [Env]; the general theorems are stated for an
    arbitrary [Env], and concrete ones ([demo_env] and its variants) are
    used to run the handlers on explicit requests. *)

From Stdlib Require Import ZArith QArith List String Ascii Bool Lia.
From Stdlib Require Import Sorting.Sorted.
Import ListNotations.
Local Open Scope string_scope.
Local Open Scope Z_scope.
Set Warnings "-register-all".

(* ================================================================= *)
(** ** Python values *)

(** A Python float.  Finite values are modelled by the rational they
    denote (rounding is outside the model), [FNaN] is the not-a-number
    value the table library uses for a missing cell. *)
Inductive pyfloat : Type :=
| FNaN
| FFin (q : Q).

(** The values that travel through the handlers: what the JSON reader
    produces and what [jsonify] serialises.  A dict keeps its keys in
    insertion order. *)
Inductive pyval : Type :=
| PNone
| PBool (b : bool)
| PInt (z : Z)
| PFloat (f : pyfloat)
| PStr (s : string)
| PList (l : list pyval)
| PDict (d : list (string * pyval)).

(** [d[k] = v] on a dict: an existing key keeps its position. *)
Fixpoint dict_set (k : string) (v : pyval) (d : list (string * pyval))
  : list (string * pyval) :=
  match d with
  | [] => [(k, v)]
  | (k', v') :: r =>
      if String.eqb k k' then (k, v) :: r else (k', v') :: dict_set k v r
  end.

Fixpoint dict_get (k : string) (d : list (string * pyval)) : option pyval :=
  match d with
  | [] => None
  | (k', v) :: r => if String.eqb k k' then Some v else dict_get k r
  end.

Definition dict_keys (d : list (string * pyval)) : list string := map fst d.

(** Truth value of an object, as tested by [not data]. *)
Definition truthy (v : pyval) : bool :=
  match v with
  | PNone => false
  | PBool b => b
  | PInt z => negb (z =? 0)
  | PFloat FNaN => true
  | PFloat (FFin q) => negb (Qeq_bool q 0)
  | PStr s => negb (String.eqb s "")
  | PList l => match l with [] => false | _ :: _ => true end
  | PDict d => match d with [] => false | _ :: _ => true end
  end.

Definition type_name (v : pyval) : string :=
  match v with
  | PNone => "NoneType"
  | PBool _ => "bool"
  | PInt _ => "int"
  | PFloat _ => "float"
  | PStr _ => "str"
  | PList _ => "list"
  | PDict _ => "dict"
  end.

(** [x == 'k'] for a string literal on the right. *)
Definition eq_str (k : string) (v : pyval) : bool :=
  match v with
  | PStr s => String.eqb s k
  | _ => false
  end.

(** Substring test, [k in s] on two strings. *)
Fixpoint contains (k s : string) : bool :=
  if prefix k s then true
  else match s with
       | EmptyString => false
       | String _ r => contains k r
       end.

(* ================================================================= *)
(** ** Exceptions, effects and the handler monad *)

Inductive exn_class : Type :=
| JSONDecodeError
| BadRequest
| UnsupportedMediaType
| TypeError
| ValueError
| KeyError
| OutOfBoundsDatetime
| OtherError (name : string).

(** A raised exception: its class and the text [str(e)] gives.  Only
    subclasses of [Exception] are modelled, the ones [except Exception]
    catches. *)
Record exn : Type := mkExn { exn_cls : exn_class; exn_str : string }.

Definition is_JSONDecodeError (e : exn) : bool :=
  match exn_cls e with
  | JSONDecodeError => true
  | _ => false
  end.

(** Calls that leave the handler, in the order they happen. *)
Inductive event : Type :=
| EvGetJson
| EvPredict (city : pyval)
| EvPathExists (path : string)
| EvReadCsv (path : string).

Definition trace : Type := list event.

(** A computation that may raise and that records the calls it makes. *)
Definition M (A : Type) : Type := trace -> (exn + A) * trace.

Definition ret {A} (a : A) : M A := fun t => (inr a, t).

Definition raise {A} (e : exn) : M A := fun t => (inl e, t).

Definition bind {A B} (m : M A) (k : A -> M B) : M B :=
  fun t =>
    match m t with
    | (inl e, t') => (inl e, t')
    | (inr a, t') => k a t'
    end.

Definition tell (ev : event) : M unit := fun t => (inr tt, (t ++ [ev])%list).

(** An outcome computed by a collaborator, brought into the monad. *)
Definition lift {A} (r : exn + A) : M A :=
  match r with
  | inl e => raise e
  | inr a => ret a
  end.

(** [try: m  except <class> : h], for the classes accepted by [sel]. *)
Definition try_except {A} (m : M A) (sel : exn -> bool) (h : exn -> M A)
  : M A :=
  fun t =>
    match m t with
    | (inl e, t') => if sel e then h e t' else (inl e, t')
    | (inr a, t') => (inr a, t')
    end.

Declare Scope py_scope.
Delimit Scope py_scope with py.
Notation "x <- m ;; k" := (bind m (fun x => k))
  (at level 100, m at next level, right associativity) : py_scope.
Notation "m ;;; k" := (bind m (fun _ => k))
  (at level 100, right associativity) : py_scope.

(** [for x in xs: acc.append(f x)] where [f] may raise. *)
Fixpoint for_each {A B} (f : A -> M B) (xs : list A) : M (list B) :=
  match xs with
  | [] => ret []
  | x :: r => bind (f x) (fun y => bind (for_each f r) (fun ys => ret (y :: ys)))
  end.

(* ================================================================= *)
(** ** Responses *)

(** What a route returns: [jsonify(payload), code]; the code is 200 when
    the handler gives none. *)
Record Response : Type := mkResponse { status_code : Z; payload : pyval }.

(** [jsonify] hands the object to the framework, which writes its keys
    in sorted order.  The order in which keys are written is not modelled:
    a payload is the object itself and is read through its keys
    ([dict_get], [field]); only the order of the elements of a list is
    that of the answer. *)
Definition jsonify (fields : list (string * pyval)) : pyval := PDict fields.

(** The error envelope the handlers build in every failure branch. *)
Definition error_envelope (err msg : string) : pyval :=
  jsonify [("error", PStr err); ("message", PStr msg); ("status", PStr "error")].

Definition error_response (err msg : string) (code : Z) : Response :=
  mkResponse code (error_envelope err msg).

(* ================================================================= *)
(** ** A JSON reader

    The framework's JSON reader is a collaborator ([json_loads] in [Env]).
    [read_json] below is an executable reader for the ASCII fragment of
    JSON without [\u] escapes; it is the reader of [demo_env] and lets the
    handlers run on request bodies given as text. *)

Definition dquote : ascii := ascii_of_nat 34.
Definition backslash : ascii := ascii_of_nat 92.

(** Writes a body with apostrophes where JSON wants double quotes. *)
Fixpoint dq (s : string) : string :=
  match s with
  | EmptyString => EmptyString
  | String c r => String (if Ascii.eqb c "'"%char then dquote else c) (dq r)
  end.

Definition is_ws (c : ascii) : bool :=
  let n := nat_of_ascii c in
  Nat.eqb n 32 || Nat.eqb n 9 || Nat.eqb n 10 || Nat.eqb n 13.

Fixpoint skip_ws (s : string) : string :=
  match s with
  | String c r => if is_ws c then skip_ws r else s
  | EmptyString => s
  end.

Definition is_digit (c : ascii) : bool :=
  let n := nat_of_ascii c in Nat.leb 48 n && Nat.leb n 57.

Definition digit_val (c : ascii) : Z := Z.of_nat (nat_of_ascii c) - 48.

(** Reads a run of decimal digits: its value, its length and the rest. *)
Fixpoint take_digits (s : string) (acc : Z) (cnt : nat) : Z * nat * string :=
  match s with
  | String c r =>
      if is_digit c then take_digits r (10 * acc + digit_val c) (S cnt)
      else (acc, cnt, s)
  | EmptyString => (acc, cnt, s)
  end.

(** The integer part of a JSON number: a single [0] or a run of digits
    that does not start with [0]. *)
Definition read_int_part (s : string) : option (Z * string) :=
  match s with
  | String c r =>
      if Ascii.eqb c "0"%char then Some (0, r)
      else if is_digit c then
             let '(v, _, r') := take_digits s 0 O in Some (v, r')
           else None
  | EmptyString => None
  end.

Definition read_frac (s : string) : option (option (Z * nat) * string) :=
  match s with
  | String "."%char r =>
      match take_digits r 0 O with
      | (_, O, _) => None
      | (v, n, r') => Some (Some (v, n), r')
      end
  | _ => Some (None, s)
  end.

Definition read_exp (s : string) : option (option Z * string) :=
  match s with
  | String c r =>
      if Ascii.eqb c "e"%char || Ascii.eqb c "E"%char then
        let '(neg, r1) :=
          match r with
          | String "-"%char r1 => (true, r1)
          | String "+"%char r1 => (false, r1)
          | _ => (false, r)
          end in
        match take_digits r1 0 O with
        | (_, O, _) => None
        | (v, _, r') => Some (Some (if neg then - v else v), r')
        end
      else Some (None, s)
  | EmptyString => Some (None, s)
  end.

Definition read_number (s : string) : option (pyval * string) :=
  let '(neg, s1) :=
    match s with
    | String "-"%char r => (true, r)
    | _ => (false, s)
    end in
  match read_int_part s1 with
  | None => None
  | Some (ip, s2) =>
      match read_frac s2 with
      | None => None
      | Some (fr, s3) =>
          match read_exp s3 with
          | None => None
          | Some (ex, s4) =>
              match fr, ex with
              | None, None => Some (PInt (if neg then - ip else ip), s4)
              | _, _ =>
                  let '(fp, fc) := match fr with Some p => p | None => (0, O) end in
                  let e := match ex with Some e => e | None => 0 end in
                  let m := Qplus (inject_Z ip) (Qmake fp (Pos.pow 10 (Pos.of_nat fc))) in
                  let q := Qred (Qmult m (Qpower (inject_Z 10) e)) in
                  Some (PFloat (FFin (if neg then Qopp q else q)), s4)
              end
          end
      end
  end.

(** The characters of a string literal after its opening quote. *)
Fixpoint read_chars (s : string) (acc : string) : option (string * string) :=
  match s with
  | EmptyString => None
  | String c r =>
      if Ascii.eqb c dquote then Some (acc, r)
      else if Ascii.eqb c backslash then
        match r with
        | String e r' =>
            let put x := read_chars r' (acc ++ String x EmptyString) in
            if Ascii.eqb e dquote then put dquote
            else if Ascii.eqb e backslash then put backslash
            else if Ascii.eqb e "/"%char then put "/"%char
            else if Ascii.eqb e "b"%char then put (ascii_of_nat 8)
            else if Ascii.eqb e "f"%char then put (ascii_of_nat 12)
            else if Ascii.eqb e "n"%char then put (ascii_of_nat 10)
            else if Ascii.eqb e "r"%char then put (ascii_of_nat 13)
            else if Ascii.eqb e "t"%char then put (ascii_of_nat 9)
            else None
        | EmptyString => None
        end
      else if Nat.ltb (nat_of_ascii c) 32 then None
      else read_chars r (acc ++ String c EmptyString)
  end.

Definition expect (lit : string) (s : string) (v : pyval)
  : option (pyval * string) :=
  if prefix lit s
  then Some (v, substring (String.length lit) (String.length s - String.length lit) s)
  else None.

Fixpoint read_value (fuel : nat) (s : string) {struct fuel}
  : option (pyval * string) :=
  match fuel with
  | O => None
  | S n =>
      match skip_ws s with
      | EmptyString => None
      | String c r =>
          if Ascii.eqb c "n"%char then expect "ull" r PNone
          else if Ascii.eqb c "t"%char then expect "rue" r (PBool true)
          else if Ascii.eqb c "f"%char then expect "alse" r (PBool false)
          else if Ascii.eqb c dquote then
            match read_chars r "" with
            | Some (str, r') => Some (PStr str, r')
            | None => None
            end
          else if Ascii.eqb c "["%char then
            match skip_ws r with
            | String "]"%char r' => Some (PList [], r')
            | _ => read_elems n r []
            end
          else if Ascii.eqb c "{"%char then
            match skip_ws r with
            | String "}"%char r' => Some (PDict [], r')
            | _ => read_members n r []
            end
          else read_number (String c r)
      end
  end
with read_elems (fuel : nat) (s : string) (acc : list pyval) {struct fuel}
  : option (pyval * string) :=
  match fuel with
  | O => None
  | S n =>
      match read_value n s with
      | None => None
      | Some (v, r) =>
          match skip_ws r with
          | String ","%char r' => read_elems n r' (acc ++ [v])%list
          | String "]"%char r' => Some (PList (acc ++ [v])%list, r')
          | _ => None
          end
      end
  end
with read_members (fuel : nat) (s : string) (acc : list (string * pyval))
  {struct fuel} : option (pyval * string) :=
  match fuel with
  | O => None
  | S n =>
      match skip_ws s with
      | String c r =>
          if Ascii.eqb c dquote then
            match read_chars r "" with
            | None => None
            | Some (k, r1) =>
                match skip_ws r1 with
                | String ":"%char r2 =>
                    match read_value n r2 with
                    | None => None
                    | Some (v, r3) =>
                        match skip_ws r3 with
                        | String ","%char r4 => read_members n r4 (dict_set k v acc)
                        | String "}"%char r4 => Some (PDict (dict_set k v acc), r4)
                        | _ => None
                        end
                    end
                | _ => None
                end
            end
          else None
      | EmptyString => None
      end
  end.

(** A whole document: one value, then nothing but white space. *)
Definition read_json (s : string) : option pyval :=
  match read_value (2 * String.length s + 2) s with
  | Some (v, r) =>
      match skip_ws r with
      | EmptyString => Some v
      | _ => None
      end
  | None => None
  end.

(* ================================================================= *)
(** ** Calendar days and time stamps

    The table library counts time in nanoseconds since 1970-01-01 on 64
    bits; the smallest 64-bit integer is its not-a-time value.  The two
    conversions between a day count and a calendar day are the standard
    ones of the proleptic Gregorian calendar. *)

Record civil : Type := mkCivil { c_year : Z; c_month : Z; c_day : Z }.

Definition is_leap (y : Z) : bool :=
  (y mod 4 =? 0) && (negb (y mod 100 =? 0) || (y mod 400 =? 0)).

Definition days_in_month (y m : Z) : Z :=
  if m =? 2 then (if is_leap y then 29 else 28)
  else if (m =? 4) || (m =? 6) || (m =? 9) || (m =? 11) then 30
  else 31.

Definition valid_civil (c : civil) : bool :=
  (1 <=? c_year c) && (c_year c <=? 9999) &&
  (1 <=? c_month c) && (c_month c <=? 12) &&
  (1 <=? c_day c) && (c_day c <=? days_in_month (c_year c) (c_month c)).

Definition days_from_civil (c : civil) : Z :=
  let y := if c_month c <=? 2 then c_year c - 1 else c_year c in
  let era := y / 400 in
  let yoe := y - era * 400 in
  let mp := if 2 <? c_month c then c_month c - 3 else c_month c + 9 in
  let doy := (153 * mp + 2) / 5 + c_day c - 1 in
  let doe := yoe * 365 + yoe / 4 - yoe / 100 + doy in
  era * 146097 + doe - 719468.

Definition civil_from_days (days : Z) : civil :=
  let z := days + 719468 in
  let era := z / 146097 in
  let doe := z - era * 146097 in
  let yoe := (doe - doe / 1460 + doe / 36524 - doe / 146096) / 365 in
  let y := yoe + era * 400 in
  let doy := doe - (365 * yoe + yoe / 4 - yoe / 100) in
  let mp := (5 * doy + 2) / 153 in
  let d := doy - (153 * mp + 2) / 5 + 1 in
  let m := if mp <? 10 then mp + 3 else mp - 9 in
  mkCivil (if m <=? 2 then y + 1 else y) m d.

(** A day of a 400-year era, counted from the first of March of the
    year [yoe] of the era: the quantity both conversions go through. *)
Definition day_of_era (yoe doy : Z) : Z := yoe * 365 + yoe / 4 - yoe / 100 + doy.

Definition ns_per_day : Z := 86400000000000.

(** The smallest and the largest 64-bit integer, [- 2 ^ 63] and
    [2 ^ 63 - 1]. *)
Definition iNaT : Z := -9223372036854775808.
Definition int64_max : Z := 9223372036854775807.

(** The calendar day a time stamp falls on. *)
Definition civil_of_ns (ns : Z) : civil := civil_from_days (ns / ns_per_day).

Definition digit_char (z : Z) : ascii := ascii_of_nat (48 + Z.to_nat (z mod 10)).

Definition pad2 (z : Z) : string :=
  String (digit_char (z / 10)) (String (digit_char z) EmptyString).

Definition pad4 (z : Z) : string :=
  String (digit_char (z / 1000)) (String (digit_char (z / 100)) (pad2 z)).

(** [strftime('%Y-%m-%d')] on a calendar day, the year on four digits as
    the language documents it (before the year 1000 some C libraries
    write fewer digits; a time stamp never lies there). *)
Definition strftime_ymd (c : civil) : string :=
  pad4 (c_year c) ++ "-" ++ pad2 (c_month c) ++ "-" ++ pad2 (c_day c).

(** The value found in the [time] column of a forecast row. *)
Inductive date_value : Type :=
| DStr (s : string)        (* text *)
| DTimestamp (ns : Z)      (* the table library's time stamp *)
| DDatetime (c : civil)    (* datetime.datetime or datetime.date *)
| DNaT                     (* the not-a-time value *)
| DNumeric (n : Z)         (* integer count of nanoseconds, numpy datetime64 *)
| DNone.

(** What [date_obj] holds after the three-way conversion. *)
Inductive date_obj : Type :=
| ObjStamp (ns : Z)
| ObjCivil (c : civil)
| ObjNaT
| ObjNone.

Definition isnull (o : date_obj) : bool :=
  match o with
  | ObjNaT | ObjNone => true
  | ObjStamp _ | ObjCivil _ => false
  end.

Definition strftime (o : date_obj) : exn + string :=
  match o with
  | ObjStamp ns => inr (strftime_ymd (civil_of_ns ns))
  | ObjCivil c => inr (strftime_ymd c)
  | ObjNaT => inl (mkExn ValueError "NaTType does not support strftime")
  | ObjNone => inl (mkExn (OtherError "AttributeError")
                      "'NoneType' object has no attribute 'strftime'")
  end.

(** [pd.to_datetime(n, unit='ns')] on an integer: the not-a-time
    pattern, a time stamp, or an error outside 64 bits (one text stands
    for the library's, which names the input). *)
Definition to_datetime_ns (n : Z) : exn + date_obj :=
  if n =? iNaT then inr ObjNaT
  else if (iNaT <? n) && (n <=? int64_max) then inr (ObjStamp n)
  else inl (mkExn OutOfBoundsDatetime
              "cannot convert input with unit 'ns'").

(* ================================================================= *)
(** ** Rows of the two tables *)

(** One row of the table the model returns. *)
Record ForecastRow : Type := mkForecastRow {
  time : date_value;
  temperature_2m_max : pyval;
  apparent_temperature_max : pyval;
  relative_humidity_2m_mean : pyval;
  wind_speed_10m_max : pyval;
  cloud_cover_mean : pyval;
  precipitation_sum : pyval;
  is_heatwave : pyval;
  heatwave_probability : pyval;
  alert_level : pyval;
  alert_color : pyval;
  recommended_action : pyval
}.

(** One row of the historical data file, with the columns the handler
    reads.  A missing numeric cell is [FNaN]. *)
Record HistoricalRecord : Type := mkHistoricalRecord {
  h_city : string;
  h_year : Z;
  h_temperature_2m_max : pyfloat;
  h_is_heatwave : Z;
  h_precipitation_sum : pyfloat;
  h_relative_humidity_2m_mean : pyfloat
}.

(* ================================================================= *)
(** ** The collaborators *)

Record Env : Type := mkEnv {
  (** the framework's JSON decoder; [None] when the text is not JSON *)
  json_loads : string -> option pyval;
  (** [str(e)] of the framework's 400 and 415 errors *)
  bad_request_text : string;
  unsupported_media_text : string;
  (** older frameworks answer [None] to a body whose content type is not
      JSON, newer ones raise the 415 error *)
  silent_mimetype : bool;
  (** [pd.to_datetime(text, errors='coerce')]; [None] is not-a-time *)
  to_datetime_text : string -> option Z;
  (** the literal readers behind [int(str)] and [float(str)] *)
  int_of_str : string -> option Z;
  float_of_str : string -> option pyfloat;
  (** [model.predict_heatwave(city)] *)
  model_predict_heatwave : pyval -> exn + list ForecastRow;
  (** [model.data_file], when the attribute exists *)
  model_data_file : option string;
  (** [os.path.exists] *)
  path_exists : string -> bool;
  (** [pd.read_csv] *)
  read_csv : string -> exn + list HistoricalRecord
}.

(** A POST request as the handler sees it: [request.data] and whether
    the content type announces JSON.  [request.data] is the body, except
    for a form content type, for which the framework leaves it empty. *)
Record Request : Type := mkRequest { data : string; is_json : bool }.

(* ================================================================= *)
(** ** Conversions and operators used by the handlers *)

Definition py_bool_Z (b : bool) : Z := if b then 1 else 0.

Definition not_a_number_for (f : string) (v : pyval) : exn :=
  mkExn TypeError
    (f ++ "() argument must be a string or a real number, not '"
       ++ type_name v ++ "'").

(** [int(v)].  The texts of the errors are abridged; the statements
    below use their classes only. *)
Definition py_int (E : Env) (v : pyval) : exn + Z :=
  match v with
  | PInt z => inr z
  | PBool b => inr (py_bool_Z b)
  | PFloat (FFin q) => inr (Z.quot (Qnum q) (Zpos (Qden q)))
  | PFloat FNaN => inl (mkExn ValueError "cannot convert float NaN to integer")
  | PStr s =>
      match int_of_str E s with
      | Some z => inr z
      | None => inl (mkExn ValueError "invalid literal for int() with base 10")
      end
  | PNone | PList _ | PDict _ => inl (not_a_number_for "int" v)
  end.

(** The first integer magnitude that no longer rounds to a finite
    double. *)
Definition float_overflow : Z := 2 ^ 1024 - 2 ^ 970.

(** [float(v)].  An integer is kept exact, where the interpreter rounds
    the integers beyond 2^53 to the nearest double; the texts of the
    errors are abridged. *)
Definition py_float (E : Env) (v : pyval) : exn + pyfloat :=
  match v with
  | PFloat f => inr f
  | PInt z =>
      if Z.abs z <? float_overflow then inr (FFin (inject_Z z))
      else inl (mkExn (OtherError "OverflowError")
                  "int too large to convert to float")
  | PBool b => inr (FFin (inject_Z (py_bool_Z b)))
  | PStr s =>
      match float_of_str E s with
      | Some f => inr f
      | None => inl (mkExn ValueError "could not convert string to float")
      end
  | PNone | PList _ | PDict _ => inl (not_a_number_for "float" v)
  end.

(** ['city' in data] *)
Definition py_contains_city (v : pyval) : exn + bool :=
  match v with
  | PDict d => inr (existsb (String.eqb "city") (dict_keys d))
  | PList l => inr (existsb (eq_str "city") l)
  | PStr s => inr (contains "city" s)
  | PNone | PBool _ | PInt _ | PFloat _ =>
      inl (mkExn TypeError
             ("argument of type '" ++ type_name v ++ "' is not iterable"))
  end.

(** [data['city']].  The texts of the errors are those of one
    interpreter version; the statements below use their classes only. *)
Definition py_getitem_city (v : pyval) : exn + pyval :=
  match v with
  | PDict d =>
      match dict_get "city" d with
      | Some x => inr x
      | None => inl (mkExn KeyError "'city'")
      end
  | PList _ =>
      inl (mkExn TypeError "list indices must be integers or slices, not str")
  | PStr _ => inl (mkExn TypeError "string indices must be integers")
  | PNone | PBool _ | PInt _ | PFloat _ =>
      inl (mkExn TypeError
             ("'" ++ type_name v ++ "' object is not subscriptable"))
  end.

(** [request.get_json()]: the decoded body, or the framework's own 400
    error when the body is not JSON; a content type other than JSON gives
    [None] or the 415 error. *)
Definition get_json (E : Env) (r : Request) : M pyval :=
  (tell EvGetJson ;;;
   if is_json r then
     match json_loads E (data r) with
     | Some v => ret v
     | None => raise (mkExn BadRequest (bad_request_text E))
     end
   else if silent_mimetype E then ret PNone
   else raise (mkExn UnsupportedMediaType (unsupported_media_text E)))%py.

(* ================================================================= *)
(** ** POST /heatwave *)

(** Lines 53-61: the three-way conversion of the [time] cell. *)
Definition to_date_obj (E : Env) (date_value : date_value) : exn + date_obj :=
  match date_value with
  | DStr s =>
      match to_datetime_text E s with
      | Some ns => inr (ObjStamp ns)
      | None => inr ObjNaT
      end
  | DTimestamp ns => inr (ObjStamp ns)
  | DDatetime c => inr (ObjCivil c)
  | DNaT => inr ObjNaT
  | DNumeric n => to_datetime_ns n
  | DNone => inr ObjNone
  end.

(** Line 63. *)
Definition formatted_date (E : Env) (date_value : date_value) : exn + string :=
  match to_date_obj E date_value with
  | inl e => inl e
  | inr date_obj =>
      if negb (isnull date_obj) then strftime date_obj else inr "N/A"
  end.

(** Lines 51-77: the entry appended for one row. *)
Definition format_row (E : Env) (row : ForecastRow) : M pyval :=
  (d <- lift (formatted_date E (time row)) ;;
   flag <- lift (py_int E (is_heatwave row)) ;;
   prob <- lift (py_float E (heatwave_probability row)) ;;
   ret (PDict
          [("date", PStr d);
           ("temperature_2m_max", temperature_2m_max row);
           ("apparent_temperature_max", apparent_temperature_max row);
           ("relative_humidity_2m_mean", relative_humidity_2m_mean row);
           ("wind_speed_10m_max", wind_speed_10m_max row);
           ("cloud_cover_mean", cloud_cover_mean row);
           ("precipitation_sum", precipitation_sum row);
           ("is_heatwave", PInt flag);
           ("heatwave_probability", PFloat prob);
           ("alert_level", alert_level row);
           ("alert_color", alert_color row);
           ("recommended_action", recommended_action row)]))%py.

(** Lines 19-84: the body of the [try] block. *)
Definition predict_heatwave_try (E : Env) (r : Request) : M Response :=
  (if String.eqb (data r) "" then
     ret (error_response "Empty request body"
            "Request must contain JSON data" 400)
   else
     parsed <- try_except
                 (v <- get_json E r ;; ret (inr v))
                 is_JSONDecodeError
                 (fun _ => ret (inl (error_response "Invalid JSON"
                                       "Request must be valid JSON" 400))) ;;
     match parsed with
     | inl resp => ret resp
     | inr data =>
         missing <- (if negb (truthy data) then ret true
                     else b <- lift (py_contains_city data) ;; ret (negb b)) ;;
         if (missing : bool) then
           ret (error_response "Missing parameter"
                  "City parameter is required in JSON body" 400)
         else
           city <- lift (py_getitem_city data) ;;
           tell (EvPredict city) ;;;
           forecast <- lift (model_predict_heatwave E city) ;;
           predictions <- for_each (format_row E) forecast ;;
           ret (mkResponse 200
                  (jsonify [("city", city);
                            ("predictions", PList predictions);
                            ("message", PStr "Forecast generated successfully");
                            ("status", PStr "success")]))
     end)%py.

(** [except Exception as e]: the outer boundary of a route. *)
Definition except_Exception (msg : string) (m : M Response)
  : Response * trace :=
  match m [] with
  | (inr resp, t) => (resp, t)
  | (inl e, t) => (error_response (exn_str e) msg 500, t)
  end.

Definition predict_heatwave (E : Env) (r : Request) : Response * trace :=
  except_Exception "Failed to process your request" (predict_heatwave_try E r).

(* ================================================================= *)
(** ** Column aggregates of the table library

    Every aggregate skips missing cells.  The maximum, minimum and mean
    of a column without a present cell are not-a-number; its sum is zero. *)

Definition dropna (col : list pyfloat) : list Q :=
  flat_map (fun f => match f with FNaN => [] | FFin q => [q] end) col.

Definition Qmax2 (a b : Q) : Q := if Qle_bool a b then b else a.
Definition Qmin2 (a b : Q) : Q := if Qle_bool b a then b else a.

Definition Qsum (l : list Q) : Q := fold_right Qplus (inject_Z 0) l.

Definition series_max (col : list pyfloat) : pyfloat :=
  match dropna col with
  | [] => FNaN
  | x :: r => FFin (fold_left Qmax2 r x)
  end.

Definition series_min (col : list pyfloat) : pyfloat :=
  match dropna col with
  | [] => FNaN
  | x :: r => FFin (fold_left Qmin2 r x)
  end.

(** The mean and the sum of the present cells, as exact rationals: the
    rounding of the doubles is outside the model. *)
Definition series_mean (col : list pyfloat) : pyfloat :=
  match dropna col with
  | [] => FNaN
  | x :: r => FFin (Qdiv (Qsum (x :: r)) (inject_Z (Z.of_nat (List.length (x :: r)))))
  end.

Definition series_sum (col : list pyfloat) : pyfloat := FFin (Qsum (dropna col)).

(** The sum of integers, without bound. *)
Definition Ztotal (col : list Z) : Z := fold_right Z.add 0 col.

(** A signed 64-bit integer: what is left of [z] after wrap-around. *)
Definition wrap64 (z : Z) : Z :=
  (z + 9223372036854775808) mod 18446744073709551616 - 9223372036854775808.

(** The sum of an integer column: 64-bit, it wraps around. *)
Definition int_series_sum (col : list Z) : Z := wrap64 (Ztotal col).

(** [Series.unique()]: the distinct values in order of first appearance. *)
Fixpoint unique_from (seen : list Z) (l : list Z) : list Z :=
  match l with
  | [] => []
  | x :: r =>
      if existsb (Z.eqb x) seen then unique_from seen r
      else x :: unique_from (x :: seen) r
  end.

Definition unique (l : list Z) : list Z := unique_from [] l.

(* ================================================================= *)
(** ** GET /api/historical *)

(** [historical_data[historical_data['city'] == city]] *)
Definition rows_of_city (city : string) (rows : list HistoricalRecord)
  : list HistoricalRecord :=
  filter (fun r => String.eqb (h_city r) city) rows.

(** [city_data[city_data['year'] == year]] *)
Definition rows_of_year (year : Z) (rows : list HistoricalRecord)
  : list HistoricalRecord :=
  filter (fun r => h_year r =? year) rows.

(** Lines 127-136: the entry appended for one year. *)
Definition year_summary (city_data : list HistoricalRecord) (year : Z) : pyval :=
  let year_data := rows_of_year year city_data in
  PDict
    [("year", PInt year);
     ("max_temp", PFloat (series_max (map h_temperature_2m_max year_data)));
     ("min_temp", PFloat (series_min (map h_temperature_2m_max year_data)));
     ("avg_temp", PFloat (series_mean (map h_temperature_2m_max year_data)));
     ("heatwave_days", PInt (int_series_sum (map h_is_heatwave year_data)));
     ("precipitation", PFloat (series_sum (map h_precipitation_sum year_data)));
     ("humidity", PFloat (series_mean (map h_relative_humidity_2m_mean year_data)))].

(** Lines 125-136. *)
Definition formatted_data (city_data : list HistoricalRecord) : list pyval :=
  map (year_summary city_data) (unique (map h_year city_data)).

Definition no_city_response : Response :=
  error_response "Missing parameter" "City parameter is required" 400.

Definition no_file_response : Response :=
  error_response "Data not available" "Historical data file not found" 404.

(** Lines 96-142: the body of the [try] block; [arg] is
    [request.args.get('city')]. *)
Definition get_historical_data_try (E : Env) (arg : option string)
  : M Response :=
  (match arg with
   | None => ret no_city_response
   | Some city =>
       if String.eqb city "" then ret no_city_response
       else
         match model_data_file E with
         | None => ret no_file_response
         | Some path =>
             tell (EvPathExists path) ;;;
             if negb (path_exists E path) then ret no_file_response
             else
               tell (EvReadCsv path) ;;;
               historical_data <- lift (read_csv E path) ;;
               let city_data := rows_of_city city historical_data in
               match city_data with
               | [] =>
                   ret (error_response "Data not found"
                          ("No historical data available for " ++ city) 404)
               | _ :: _ =>
                   ret (mkResponse 200
                          (jsonify [("city", PStr city);
                                    ("historical_data",
                                      PList (formatted_data city_data));
                                    ("status", PStr "success")]))
               end
         end
   end)%py.

Definition get_historical_data (E : Env) (arg : option string)
  : Response * trace :=
  except_Exception "Failed to fetch historical data"
    (get_historical_data_try E arg).

(* ================================================================= *)
(** ** A concrete environment *)

Definition all_digits (s : string) : bool :=
  match take_digits s 0 O with
  | (_, _, EmptyString) => true
  | _ => false
  end.

Definition digits_value (s : string) : Z := fst (fst (take_digits s 0 O)).

(** A reader for the text form [YYYY-MM-DD] within the range of a time
    stamp; any other text is not-a-time. *)
Definition read_iso_day (s : string) : option Z :=
  if Nat.eqb (String.length s) 10
     && all_digits (substring 0 4 s) && String.eqb (substring 4 1 s) "-"
     && all_digits (substring 5 2 s) && String.eqb (substring 7 1 s) "-"
     && all_digits (substring 8 2 s)
  then
    let c := mkCivil (digits_value (substring 0 4 s))
                     (digits_value (substring 5 2 s))
                     (digits_value (substring 8 2 s)) in
    let ns := days_from_civil c * ns_per_day in
    if valid_civil c && (iNaT <? ns) && (ns <=? int64_max) then Some ns else None
  else None.

Definition demo_row (t : date_value) (flag prob : pyval) : ForecastRow :=
  mkForecastRow t (PFloat (FFin (41 # 1))) (PFloat (FFin (43 # 1)))
    (PFloat (FFin (20 # 1))) (PFloat (FFin (12 # 1))) (PFloat (FFin (5 # 1)))
    (PFloat (FFin (0 # 1))) flag prob (PStr "High") (PStr "orange")
    (PStr "Stay hydrated").

Definition demo_forecast : list ForecastRow :=
  [demo_row (DStr "2024-07-01") (PInt 1) (PFloat (FFin (9 # 10)));
   demo_row (DDatetime (mkCivil 2024 7 1)) (PBool false) (PFloat (FFin (1 # 4)));
   demo_row (DNumeric 1719792000000000000) (PInt 0) (PFloat (FFin (0 # 1)));
   demo_row (DStr "soon") (PInt 1) (PFloat (FFin (1 # 1)))].

Definition hist (city : string) (year temp flag : Z) : HistoricalRecord :=
  mkHistoricalRecord city year (FFin (inject_Z temp)) flag
    (FFin (1 # 2)) (FFin (40 # 1)).

Definition demo_dataset : list HistoricalRecord :=
  [hist "X" 2021 33 1; hist "X" 2020 30 0; hist "Y" 2019 25 0;
   hist "X" 2020 35 1; hist "X" 2020 32 0; hist "X" 2021 31 0].

(** The model knows the city Phoenix and fails on any other; the data
    file exists and holds [demo_dataset]. *)
Definition demo_env : Env :=
  {| json_loads := read_json;
     bad_request_text := "400 Bad Request: The browser (or proxy) sent a request that this server could not understand.";
     unsupported_media_text := "415 Unsupported Media Type: Did not attempt to load JSON data because the request Content-Type was not 'application/json'.";
     silent_mimetype := false;
     to_datetime_text := read_iso_day;
     int_of_str := fun s => if all_digits s && negb (String.eqb s "")
                            then Some (digits_value s) else None;
     float_of_str := fun _ => None;
     model_predict_heatwave := fun city =>
       if eq_str "Phoenix" city then inr demo_forecast
       else inl (mkExn ValueError "City not found");
     model_data_file := Some "heatwave_data.csv";
     path_exists := fun p => String.eqb p "heatwave_data.csv";
     read_csv := fun _ => inr demo_dataset |}.

(* ================================================================= *)
(** ** Reading a response *)

Definition field (k : string) (resp : Response) : option pyval :=
  match payload resp with
  | PDict d => dict_get k d
  | _ => None
  end.

Definition error_field (resp : Response) : option pyval := field "error" resp.

Definition keys_of (resp : Response) : list string :=
  match payload resp with
  | PDict d => dict_keys d
  | _ => []
  end.

(** The model was called during the handling of a request. *)
Definition model_invoked (t : trace) : bool :=
  existsb (fun ev => match ev with EvPredict _ => true | _ => false end) t.

(** The body was handed to the JSON reader. *)
Definition json_attempted (t : trace) : bool :=
  existsb (fun ev => match ev with EvGetJson => true | _ => false end) t.

Definition missing_parameter_post : Response :=
  error_response "Missing parameter"
    "City parameter is required in JSON body" 400.

Definition demo_post (body : string) : Response * trace :=
  predict_heatwave demo_env (mkRequest (dq body) true).

(* ================================================================= *)
(** ** Well-formed rows *)

(** A [time] cell the conversion accepts: an integer count must fit 64
    bits, as every numpy datetime64 does. *)
Definition date_in_range (d : date_value) : bool :=
  match d with
  | DNumeric n => (iNaT <=? n) && (n <=? int64_max)
  | _ => true
  end.

(** A [time] cell the handler renders as "N/A": text the table library
    cannot read, or one of the null values.  A count outside 64 bits is
    not among them: its conversion raises. *)
Definition unparseable (E : Env) (d : date_value) : bool :=
  match d with
  | DStr s => match to_datetime_text E s with None => true | Some _ => false end
  | DNaT | DNone => true
  | DNumeric n => n =? iNaT
  | DTimestamp _ | DDatetime _ => false
  end.

Definition is_inr {A B} (x : A + B) : bool :=
  match x with inr _ => true | inl _ => false end.

(** The three conversions of a row go through. *)
Definition row_formats (E : Env) (row : ForecastRow) : bool :=
  date_in_range (time row)
  && is_inr (py_int E (is_heatwave row))
  && is_inr (py_float E (heatwave_probability row)).

(** The heatwave flag of the data model: a boolean, or the integer 0 or 1. *)
Definition is_flag (v : pyval) : bool :=
  match v with
  | PBool _ => true
  | PInt z => (z =? 0) || (z =? 1)
  | _ => false
  end.

(** The probability of the data model: a float between 0.0 and 1.0. *)
Definition is_probability (v : pyval) : bool :=
  match v with
  | PFloat (FFin q) => Qle_bool (inject_Z 0) q && Qle_bool q (inject_Z 1)
  | _ => false
  end.

(** The entry the handler appends for a row whose conversions go through. *)
Definition entry_of (E : Env) (row : ForecastRow) : pyval :=
  match fst (format_row E row []) with
  | inr p => p
  | inl _ => PNone
  end.

Definition success_response (city : pyval) (predictions : list pyval) : Response :=
  mkResponse 200
    (jsonify [("city", city);
              ("predictions", PList predictions);
              ("message", PStr "Forecast generated successfully");
              ("status", PStr "success")]).

Definition entry_field (k : string) (entry : pyval) : option pyval :=
  match entry with
  | PDict d => dict_get k d
  | _ => None
  end.

(** Lines 37-84: what the handler does with the decoded body. *)
Definition after_decoding (E : Env) (v : pyval) : M Response :=
  bind (if negb (truthy v) then ret true
        else bind (lift (py_contains_city v)) (fun b => ret (negb b)))
    (fun missing : bool =>
       if missing then ret missing_parameter_post
       else
         bind (lift (py_getitem_city v)) (fun city =>
         bind (tell (EvPredict city)) (fun _ =>
         bind (lift (model_predict_heatwave E city)) (fun forecast =>
         bind (for_each (format_row E) forecast) (fun predictions =>
         ret (success_response city predictions)))))).

(* ================================================================= *)
(** ** Year summaries, in the words of the data model *)

(** The heatwave flag of a record is 0 or 1. *)
Definition binary_flag (r : HistoricalRecord) : bool :=
  (h_is_heatwave r =? 0) || (h_is_heatwave r =? 1).

Definition is_maximum (m : Q) (l : list Q) : Prop :=
  In m l /\ forall x, In x l -> (x <= m)%Q.

Definition is_minimum (m : Q) (l : list Q) : Prop :=
  In m l /\ forall x, In x l -> (m <= x)%Q.

(** The number of records flagged as heatwave days. *)
Definition heatwave_day_count (g : list HistoricalRecord) : nat :=
  List.length (filter (fun r => h_is_heatwave r =? 1) g).

Definition summary_year (entry : pyval) : option Z :=
  match entry_field "year" entry with
  | Some (PInt y) => Some y
  | _ => None
  end.

(** The years of the entries of [historical_data], in response order. *)
Definition response_years (resp : Response) : list (option Z) :=
  match field "historical_data" resp with
  | Some (PList l) => map summary_year l
  | _ => []
  end.

Definition historical_response (city : string) (entries : list pyval) : Response :=
  mkResponse 200
    (jsonify [("city", PStr city);
              ("historical_data", PList entries);
              ("status", PStr "success")]).

Definition demo_get (city : string) : Response * trace :=
  get_historical_data demo_env (Some city).

(* ================================================================= *)
(** ** Fault classes *)

Inductive fault_class : Type :=
| ClientInputError
| NotFoundError
| UnexpectedError.

Definition http_status (c : fault_class) : Z :=
  match c with
  | ClientInputError => 400
  | NotFoundError => 404
  | UnexpectedError => 500
  end.

(** The computation ends by raising [e]. *)
Definition raised {A} (m : M A) (e : exn) : Prop := fst (m []) = inl e.

(** The error codes a route answers under each status code, by the
    branch it takes: the codes of the validators under 400, those of the
    data checks under 404, the text of an exception raised in the [try]
    block under 500. *)
Definition post_fault (E : Env) (r : Request) (cls : fault_class)
  (err : string) : Prop :=
  match cls with
  | ClientInputError => In err ["Empty request body"; "Missing parameter"]
  | NotFoundError => False
  | UnexpectedError =>
      exists e, raised (predict_heatwave_try E r) e /\ err = exn_str e
  end.

Definition get_fault (E : Env) (arg : option string) (cls : fault_class)
  (err : string) : Prop :=
  match cls with
  | ClientInputError => err = "Missing parameter"
  | NotFoundError => In err ["Data not available"; "Data not found"]
  | UnexpectedError =>
      exists e, raised (get_historical_data_try E arg) e /\ err = exn_str e
  end.

(** The shape every failure answer has. *)
Definition is_error_envelope (resp : Response) : Prop :=
  keys_of resp = ["error"; "message"; "status"]
  /\ field "status" resp = Some (PStr "error")
  /\ exists err msg, field "error" resp = Some (PStr err)
                     /\ field "message" resp = Some (PStr msg).

(* ================================================================= *)
(** ** Further readings of an answer *)

Definition entry_keys (entry : pyval) : list string :=
  match entry with
  | PDict d => dict_keys d
  | _ => []
  end.

(** The keys of an entry of [predictions] (lines 64-77). *)
Definition prediction_keys : list string :=
  ["date"; "temperature_2m_max"; "apparent_temperature_max";
   "relative_humidity_2m_mean"; "wind_speed_10m_max"; "cloud_cover_mean";
   "precipitation_sum"; "is_heatwave"; "heatwave_probability";
   "alert_level"; "alert_color"; "recommended_action"].

(** The keys of an entry of [historical_data] (lines 128-136). *)
Definition summary_keys : list string :=
  ["year"; "max_temp"; "min_temp"; "avg_temp"; "heatwave_days";
   "precipitation"; "humidity"].

(** Two lists hold the same keys, in whatever order. *)
Definition same_keys (a b : list string) : bool :=
  Nat.eqb (List.length a) (List.length b)
  && forallb (fun k => existsb (String.eqb k) b) a
  && forallb (fun k => existsb (String.eqb k) a) b.

Definition is_PStr (v : option pyval) : bool :=
  match v with Some (PStr _) => true | _ => false end.

Definition is_PInt (v : option pyval) : bool :=
  match v with Some (PInt _) => true | _ => false end.

Definition is_PFloat (v : option pyval) : bool :=
  match v with Some (PFloat _) => true | _ => false end.

(** An entry of [predictions] with its twelve keys and with a string, an
    integer and a float under the three keys the handler computes. *)
Definition typed_prediction (entry : pyval) : bool :=
  same_keys (entry_keys entry) prediction_keys
  && is_PStr (entry_field "date" entry)
  && is_PInt (entry_field "is_heatwave" entry)
  && is_PFloat (entry_field "heatwave_probability" entry).

(** An entry of [historical_data] with its seven keys, integers under
    [year] and [heatwave_days] and floats under the other five. *)
Definition typed_summary (entry : pyval) : bool :=
  same_keys (entry_keys entry) summary_keys
  && is_PInt (entry_field "year" entry)
  && is_PFloat (entry_field "max_temp" entry)
  && is_PFloat (entry_field "min_temp" entry)
  && is_PFloat (entry_field "avg_temp" entry)
  && is_PInt (entry_field "heatwave_days" entry)
  && is_PFloat (entry_field "precipitation" entry)
  && is_PFloat (entry_field "humidity" entry).

Definition entry_heatwave_days (entry : pyval) : Z :=
  match entry_field "heatwave_days" entry with
  | Some (PInt z) => z
  | _ => 0
  end.

(** The entries of [historical_data] in an answer. *)
Definition historical_entries (resp : Response) : list pyval :=
  match field "historical_data" resp with
  | Some (PList l) => l
  | _ => []
  end.

(** [demo_env] with a model that answers every city with [rows]. *)
Definition forecast_env (rows : list ForecastRow) : Env :=
  {| json_loads := json_loads demo_env;
     bad_request_text := bad_request_text demo_env;
     unsupported_media_text := unsupported_media_text demo_env;
     silent_mimetype := silent_mimetype demo_env;
     to_datetime_text := to_datetime_text demo_env;
     int_of_str := int_of_str demo_env;
     float_of_str := float_of_str demo_env;
     model_predict_heatwave := fun _ => inr rows;
     model_data_file := model_data_file demo_env;
     path_exists := path_exists demo_env;
     read_csv := read_csv demo_env |}.

(** A forecast whose second row has a missing heatwave flag. *)
Definition forecast_with_missing_flag : list ForecastRow :=
  [demo_row (DStr "2024-07-01") (PInt 1) (PFloat (FFin (9 # 10)));
   demo_row (DStr "2024-07-02") (PFloat FNaN) (PFloat (FFin (1 # 2)));
   demo_row (DStr "2024-07-03") PNone (PFloat (FFin (1 # 2)))].

(* ================================================================= *)
(** ** The words of the claims, independently of the handlers *)

Definition digit_of (c : ascii) : option Z :=
  if is_digit c then Some (digit_val c) else None.

(** The calendar day a text of the form [YYYY-MM-DD] names: four digits,
    a dash, two digits, a dash, two digits, and nothing else. *)
Definition calendar_day_text (s : string) : option civil :=
  match s with
  | String y1 (String y2 (String y3 (String y4 (String h1
      (String m1 (String m2 (String h2 (String d1 (String d2 EmptyString))))))))) =>
      match digit_of y1, digit_of y2, digit_of y3, digit_of y4,
            digit_of m1, digit_of m2, digit_of d1, digit_of d2 with
      | Some a, Some b, Some c, Some d, Some e, Some f, Some g, Some h =>
          if Ascii.eqb h1 "-"%char && Ascii.eqb h2 "-"%char
          then Some (mkCivil (1000 * a + 100 * b + 10 * c + d) (10 * e + f) (10 * g + h))
          else None
      | _, _, _, _, _, _, _, _ => None
      end
  | _ => None
  end.

(** The integer part of a rational, towards zero. *)
Definition truncation_of (q : Q) (z : Z) : Prop :=
  ((inject_Z 0 <= q)%Q -> (inject_Z z <= q)%Q /\ (q < inject_Z (z + 1))%Q)
  /\ ((q <= inject_Z 0)%Q -> (inject_Z (z - 1) < q)%Q /\ (q <= inject_Z z)%Q).

(** The records of one city and one year in a data file. *)
Definition group_of (city : string) (year : Z) (rows : list HistoricalRecord)
  : list HistoricalRecord :=
  filter (fun r => String.eqb (h_city r) city && (h_year r =? year)) rows.

(** The present cells of a column of a group, in record order. *)
Fixpoint present_cells (f : HistoricalRecord -> pyfloat)
  (g : list HistoricalRecord) : list Q :=
  match g with
  | [] => []
  | r :: g' =>
      match f r with
      | FFin q => q :: present_cells f g'
      | FNaN => present_cells f g'
      end
  end.

(** [s] is the sum of the list. *)
Inductive total_is : list Q -> Q -> Prop :=
| total_nil : total_is [] (inject_Z 0)
| total_cons (x : Q) (l : list Q) (s : Q) :
    total_is l s -> total_is (x :: l) (x + s)%Q.

(** [m] is the arithmetic mean of a list that is not empty: [m] times the
    number of values is their sum. *)
Definition mean_is (l : list Q) (m : Q) : Prop :=
  l <> [] /\ exists s, total_is l s
                      /\ (m * inject_Z (Z.of_nat (List.length l)) == s)%Q.

(** A data file with one record of city Z, whose temperature cell is
    missing and whose flag is 2. *)
Definition sparse_dataset : list HistoricalRecord :=
  [mkHistoricalRecord "Z" 2022 FNaN 2 (FFin (3 # 1)) (FFin (50 # 1))].

Definition sparse_env : Env :=
  {| json_loads := json_loads demo_env;
     bad_request_text := bad_request_text demo_env;
     unsupported_media_text := unsupported_media_text demo_env;
     silent_mimetype := silent_mimetype demo_env;
     to_datetime_text := to_datetime_text demo_env;
     int_of_str := int_of_str demo_env;
     float_of_str := float_of_str demo_env;
     model_predict_heatwave := model_predict_heatwave demo_env;
     model_data_file := model_data_file demo_env;
     path_exists := path_exists demo_env;
     read_csv := fun _ => inr sparse_dataset |}.

(** A body that is announced as JSON and is not JSON. *)
Definition malformed_body (E : Env) (r : Request) : Prop :=
  data r <> "" /\ is_json r = true /\ json_loads E (data r) = None.

(** The fault class of a POST request, read off the request and the
    model's answer and not off the handler: empty, malformed or missing
    request data is the client's input; a failure of the model is
    unexpected; [None] where the request has no fault up to the model's
    answer. *)
Definition fault_of_post (E : Env) (r : Request) : option fault_class :=
  if String.eqb (data r) "" then Some ClientInputError
  else if negb (is_json r) then Some ClientInputError
  else
    match json_loads E (data r) with
    | None => Some ClientInputError
    | Some (PDict d) =>
        match dict_get "city" d with
        | None => Some ClientInputError
        | Some city =>
            match model_predict_heatwave E city with
            | inl _ => Some UnexpectedError
            | inr _ => None
            end
        end
    | Some _ => Some ClientInputError
    end.

(** [z] is the integer a flag cell denotes: the integer itself, 0 or 1
    for a boolean, the truncation of a float, the integer a text spells;
    a missing cell, a list and an object denote none. *)
Definition flag_coerced (E : Env) (cell : pyval) (z : Z) : Prop :=
  match cell with
  | PInt z0 => z = z0
  | PBool true => z = 1
  | PBool false => z = 0
  | PFloat (FFin q) => truncation_of q z
  | PStr s => int_of_str E s = Some z
  | PFloat FNaN | PNone | PList _ | PDict _ => False
  end.

(** [f] is the float a probability cell denotes: the float itself, the
    integer as a float (stated for the integers every double holds
    exactly), 0.0 or 1.0 for a boolean, the float a text spells. *)
Definition probability_coerced (E : Env) (cell : pyval) (f : pyfloat) : Prop :=
  match cell with
  | PFloat f0 => f = f0
  | PInt z0 => Z.abs z0 <= 2 ^ 53 -> f = FFin (inject_Z z0)
  | PBool true => f = FFin (inject_Z 1)
  | PBool false => f = FFin (inject_Z 0)
  | PStr s => float_of_str E s = Some f
  | PNone | PList _ | PDict _ => False
  end.

(** The keys of a 200 answer of POST /heatwave (lines 79-84). *)
Definition forecast_keys : list string :=
  ["city"; "predictions"; "message"; "status"].

(** A forecast row with the flag 7 and the probability 3/2. *)
Definition unclamped_forecast : list ForecastRow :=
  [demo_row (DStr "2024-07-01") (PInt 7) (PFloat (FFin (3 # 2)))].

(** A forecast row dated by a count one past the largest 64-bit integer. *)
Definition overlong_forecast : list ForecastRow :=
  [demo_row (DNumeric 9223372036854775808) (PInt 1) (PFloat (FFin (1 # 2)))].

Definition phoenix_request : Request := mkRequest (dq "{'city': 'Phoenix'}") true.

(* ================================================================= *)
(** ** Basic facts about the monad and the operators *)

Lemma eqb_nonempty (s : string) : s <> "" -> String.eqb s "" = false.
Proof. intro H. now apply String.eqb_neq. Qed.

Lemma get_json_decoded (E : Env) (r : Request) (v : pyval) (t : trace) :
  is_json r = true -> json_loads E (data r) = Some v ->
  get_json E r t = (inr v, (t ++ [EvGetJson])%list).
Proof.
  intros Hj Hl. unfold get_json, bind, tell, ret. now rewrite Hj, Hl.
Qed.

Lemma get_json_malformed (E : Env) (r : Request) (t : trace) :
  is_json r = true -> json_loads E (data r) = None ->
  get_json E r t
  = (inl (mkExn BadRequest (bad_request_text E)), (t ++ [EvGetJson])%list).
Proof.
  intros Hj Hl. unfold get_json, bind, tell, raise. now rewrite Hj, Hl.
Qed.

(** The framework never raises the decoder's own error class. *)
Lemma get_json_never_JSONDecodeError (E : Env) (r : Request) (t t' : trace)
  (e : exn) :
  get_json E r t = (inl e, t') -> is_JSONDecodeError e = false.
Proof.
  unfold get_json, bind, tell, ret, raise.
  destruct (is_json r); [destruct (json_loads E (data r)) | destruct (silent_mimetype E)];
    intros H; inversion H; reflexivity.
Qed.

Lemma has_city_key (d : list (string * pyval)) :
  existsb (String.eqb "city") (dict_keys d) = true <-> dict_get "city" d <> None.
Proof.
  unfold dict_keys.
  induction d as [|[k v] d IH]; cbn [dict_get map fst existsb].
  - split; intro H; [discriminate H | now contradiction H].
  - destruct (String.eqb "city" k); cbn [orb].
    + split; intro H; [discriminate | reflexivity].
    + exact IH.
Qed.

Lemma lacks_city_key (d : list (string * pyval)) :
  dict_get "city" d = None -> existsb (String.eqb "city") (dict_keys d) = false.
Proof.
  intro H. destruct (existsb (String.eqb "city") (dict_keys d)) eqn:Ex; [|reflexivity].
  apply has_city_key in Ex. contradiction.
Qed.

(** Formatting a row makes no call to a collaborator. *)
Lemma format_row_trace (E : Env) (row : ForecastRow) (t : trace) :
  format_row E row t = (fst (format_row E row []), t).
Proof.
  unfold format_row, bind, lift, ret, raise.
  destruct (formatted_date E (time row)); [reflexivity|].
  destruct (py_int E (is_heatwave row)); [reflexivity|].
  destruct (py_float E (heatwave_probability row)); reflexivity.
Qed.

Lemma for_each_format_row_trace (E : Env) (rows : list ForecastRow) (t : trace) :
  for_each (format_row E) rows t = (fst (for_each (format_row E) rows []), t).
Proof.
  revert t. induction rows as [|row rows IH]; intro t; [reflexivity|].
  simpl. unfold bind.
  rewrite (format_row_trace E row t), (format_row_trace E row []).
  destruct (fst (format_row E row [])) as [e|p]; [reflexivity|].
  rewrite (IH t), (IH []).
  destruct (fst (for_each (format_row E) rows [])); reflexivity.
Qed.

(* ================================================================= *)
(** ** POST /heatwave: how a request is routed through the checks *)

(** The [try] block once the body is known to be non-empty and
    [request.get_json()] has returned [v]. *)
Lemma predict_heatwave_try_decoded (E : Env) (r : Request) (v : pyval)
  (t1 : trace) :
  data r <> "" ->
  get_json E r [] = (inr v, t1) ->
  predict_heatwave_try E r [] = after_decoding E v t1.
Proof.
  intros Hne Hg. unfold predict_heatwave_try.
  rewrite (eqb_nonempty _ Hne).
  unfold try_except, bind at 1 2. rewrite Hg. reflexivity.
Qed.

(** The [try] block once [request.get_json()] has raised. *)
Lemma predict_heatwave_try_get_json_raises (E : Env) (r : Request) (e : exn)
  (t1 : trace) :
  data r <> "" ->
  get_json E r [] = (inl e, t1) ->
  predict_heatwave_try E r [] = (inl e, t1).
Proof.
  intros Hne Hg. unfold predict_heatwave_try.
  rewrite (eqb_nonempty _ Hne).
  unfold try_except, bind at 1 2. rewrite Hg.
  rewrite (get_json_never_JSONDecodeError _ _ _ _ _ Hg). reflexivity.
Qed.

Lemma predict_heatwave_get_json_raises (E : Env) (r : Request) (e : exn)
  (t1 : trace) :
  data r <> "" ->
  get_json E r [] = (inl e, t1) ->
  predict_heatwave E r
  = (error_response (exn_str e) "Failed to process your request" 500, t1).
Proof.
  intros Hne Hg. unfold predict_heatwave, except_Exception.
  rewrite (predict_heatwave_try_get_json_raises E r e t1 Hne Hg). reflexivity.
Qed.

Lemma after_decoding_falsy (E : Env) (v : pyval) (t1 : trace) :
  truthy v = false -> after_decoding E v t1 = (inr missing_parameter_post, t1).
Proof. intro Hf. unfold after_decoding, bind. rewrite Hf. reflexivity. Qed.

Lemma after_decoding_no_city_key (E : Env) (d : list (string * pyval))
  (t1 : trace) :
  dict_get "city" d = None ->
  after_decoding E (PDict d) t1 = (inr missing_parameter_post, t1).
Proof.
  intro Hk. unfold after_decoding, bind, lift, py_contains_city.
  rewrite (lacks_city_key d Hk).
  destruct (negb (truthy (PDict d))); reflexivity.
Qed.

Lemma after_decoding_city_key (E : Env) (d : list (string * pyval))
  (city : pyval) (t1 : trace) :
  dict_get "city" d = Some city ->
  after_decoding E (PDict d) t1 =
  match model_predict_heatwave E city with
  | inl e => (inl e, (t1 ++ [EvPredict city])%list)
  | inr forecast =>
      match fst (for_each (format_row E) forecast []) with
      | inl e => (inl e, (t1 ++ [EvPredict city])%list)
      | inr predictions =>
          (inr (success_response city predictions), (t1 ++ [EvPredict city])%list)
      end
  end.
Proof.
  intro Hk.
  assert (Ht : truthy (PDict d) = true) by (destruct d; [discriminate Hk | reflexivity]).
  assert (Hin : existsb (String.eqb "city") (dict_keys d) = true)
    by (apply has_city_key; congruence).
  unfold after_decoding, bind, lift, py_contains_city, py_getitem_city, tell.
  rewrite Ht, Hin, Hk. cbn [negb ret raise].
  destruct (model_predict_heatwave E city) as [e|forecast]; [reflexivity|].
  cbn [ret].
  rewrite for_each_format_row_trace.
  destruct (fst (for_each (format_row E) forecast [])); reflexivity.
Qed.

Lemma predict_heatwave_falsy (E : Env) (r : Request) (v : pyval) (t1 : trace) :
  data r <> "" ->
  get_json E r [] = (inr v, t1) ->
  truthy v = false ->
  predict_heatwave E r = (missing_parameter_post, t1).
Proof.
  intros Hne Hg Hf. unfold predict_heatwave, except_Exception.
  rewrite (predict_heatwave_try_decoded E r v t1 Hne Hg).
  rewrite (after_decoding_falsy E v t1 Hf). reflexivity.
Qed.

Lemma predict_heatwave_no_city_key (E : Env) (r : Request)
  (d : list (string * pyval)) (t1 : trace) :
  data r <> "" ->
  get_json E r [] = (inr (PDict d), t1) ->
  dict_get "city" d = None ->
  predict_heatwave E r = (missing_parameter_post, t1).
Proof.
  intros Hne Hg Hk. unfold predict_heatwave, except_Exception.
  rewrite (predict_heatwave_try_decoded E r _ t1 Hne Hg).
  rewrite (after_decoding_no_city_key E d t1 Hk). reflexivity.
Qed.

(** An object with a [city] key goes to the model, whatever the value
    under the key. *)
Lemma predict_heatwave_city_key (E : Env) (r : Request)
  (d : list (string * pyval)) (city : pyval) (t1 : trace) :
  data r <> "" ->
  get_json E r [] = (inr (PDict d), t1) ->
  dict_get "city" d = Some city ->
  predict_heatwave E r =
  match model_predict_heatwave E city with
  | inl e => (error_response (exn_str e) "Failed to process your request" 500,
              (t1 ++ [EvPredict city])%list)
  | inr forecast =>
      match fst (for_each (format_row E) forecast []) with
      | inl e => (error_response (exn_str e) "Failed to process your request" 500,
                  (t1 ++ [EvPredict city])%list)
      | inr predictions =>
          (success_response city predictions, (t1 ++ [EvPredict city])%list)
      end
  end.
Proof.
  intros Hne Hg Hk. unfold predict_heatwave, except_Exception.
  rewrite (predict_heatwave_try_decoded E r _ t1 Hne Hg).
  rewrite (after_decoding_city_key E d city t1 Hk).
  destruct (model_predict_heatwave E city) as [e|forecast]; [reflexivity|].
  destruct (fst (for_each (format_row E) forecast [])); reflexivity.
Qed.

(* ================================================================= *)
(** ** POST /heatwave: the validation contract *)

(** C9.  A request with an empty body is answered with status 400 and
    error "Empty request body"; the body is never handed to the JSON
    reader and no collaborator is called. *)
Theorem empty_body_rejected_first (E : Env) (r : Request) :
  data r = "" ->
  predict_heatwave E r
  = (error_response "Empty request body" "Request must contain JSON data" 400, [])
  /\ status_code (fst (predict_heatwave E r)) = 400
  /\ error_field (fst (predict_heatwave E r)) = Some (PStr "Empty request body")
  /\ json_attempted (snd (predict_heatwave E r)) = false.
Proof.
  intro H.
  assert (Hrun : predict_heatwave E r
                 = (error_response "Empty request body"
                      "Request must contain JSON data" 400, [])).
  { unfold predict_heatwave, except_Exception, predict_heatwave_try.
    rewrite H. reflexivity. }
  rewrite Hrun. repeat split.
Qed.

Lemma empty_body_rejected_first_witness :
  data (mkRequest "" true) = ""
  /\ status_code (fst (predict_heatwave demo_env (mkRequest "" true))) = 400.
Proof.
  split; [reflexivity|].
  apply (empty_body_rejected_first demo_env (mkRequest "" true)). reflexivity.
Defined.

(** A body the decoder refuses is answered by the outer handler: the
    framework raises its own 400 error, which is not the decoder's error
    class, so the "Invalid JSON" branch does not catch it. *)
Lemma malformed_json_not_classified (E : Env) (r : Request) :
  data r <> "" -> is_json r = true -> json_loads E (data r) = None ->
  predict_heatwave E r
  = (error_response (bad_request_text E) "Failed to process your request" 500,
     [EvGetJson]).
Proof.
  intros Hne Hj Hl.
  apply (predict_heatwave_get_json_raises E r
           (mkExn BadRequest (bad_request_text E)) [EvGetJson] Hne).
  exact (get_json_malformed E r [] Hj Hl).
Qed.

(** C1.  The body [{"city": ] is not empty and is not JSON; the handler
    answers it with status 500 and the framework's error text, not with
    400 and "Invalid JSON". *)
Theorem malformed_json_answers_500 :
  data (mkRequest (dq "{'city': ") true) <> ""
  /\ json_loads demo_env (dq "{'city': ") = None
  /\ status_code (fst (demo_post "{'city': ")) = 500
  /\ error_field (fst (demo_post "{'city': "))
     = Some (PStr (bad_request_text demo_env))
  /\ error_field (fst (demo_post "{'city': ")) <> Some (PStr "Invalid JSON").
Proof.
  split; [discriminate|].
  split; [vm_compute; reflexivity|].
  split; [vm_compute; reflexivity|].
  split; [vm_compute; reflexivity|].
  vm_compute. discriminate.
Qed.

(** C10.  A body that decodes to a falsy value -- null, false, 0, the
    empty string, the empty array, the empty object -- is answered with
    status 400 and error "Missing parameter", the very response given to
    an object without a "city" key. *)
Theorem falsy_body_missing_parameter (E : Env) (r : Request) (v : pyval) :
  data r <> "" -> is_json r = true -> json_loads E (data r) = Some v ->
  In v [PNone; PBool false; PInt 0; PStr ""; PList []; PDict []] ->
  predict_heatwave E r = (missing_parameter_post, [EvGetJson])
  /\ status_code (fst (predict_heatwave E r)) = 400
  /\ error_field (fst (predict_heatwave E r)) = Some (PStr "Missing parameter")
  /\ forall (r' : Request) (d : list (string * pyval)),
       data r' <> "" -> is_json r' = true ->
       json_loads E (data r') = Some (PDict d) -> dict_get "city" d = None ->
       fst (predict_heatwave E r') = fst (predict_heatwave E r).
Proof.
  intros Hne Hj Hl Hin.
  assert (Hf : truthy v = false).
  { simpl in Hin. repeat (destruct Hin as [<-|Hin]; [reflexivity|]). destruct Hin. }
  assert (Hrun : predict_heatwave E r = (missing_parameter_post, [EvGetJson])).
  { apply (predict_heatwave_falsy E r v [EvGetJson] Hne); [|exact Hf].
    exact (get_json_decoded E r v [] Hj Hl). }
  rewrite Hrun. repeat split.
  intros r' d Hne' Hj' Hl' Hk.
  rewrite (predict_heatwave_no_city_key E r' d [EvGetJson] Hne'
             (get_json_decoded E r' _ [] Hj' Hl') Hk).
  reflexivity.
Qed.

Lemma falsy_body_missing_parameter_witness :
  In PNone [PNone; PBool false; PInt 0; PStr ""; PList []; PDict []]
  /\ demo_post "null" = (missing_parameter_post, [EvGetJson]).
Proof.
  split; [left; reflexivity|].
  apply (falsy_body_missing_parameter demo_env (mkRequest (dq "null") true) PNone).
  - discriminate.
  - reflexivity.
  - vm_compute; reflexivity.
  - left; reflexivity.
Defined.

(** The six falsy bodies, run through the reader of [demo_env]. *)
Example falsy_bodies_run :
  map (fun b => fst (demo_post b)) ["null"; "false"; "0"; "''"; "[]"; "{}"]
  = repeat missing_parameter_post 6.
Proof. vm_compute. reflexivity. Qed.

(** C2, as stated, fails: the body [{"city": ""}] decodes to an object
    whose "city" is the empty string, and the handler does not answer 400
    "Missing parameter" but calls the model with the empty city. *)
Lemma empty_city_reaches_model :
  json_loads demo_env (dq "{'city': ''}") = Some (PDict [("city", PStr "")])
  /\ status_code (fst (demo_post "{'city': ''}")) <> 400
  /\ error_field (fst (demo_post "{'city': ''}")) <> Some (PStr "Missing parameter")
  /\ snd (demo_post "{'city': ''}") = [EvGetJson; EvPredict (PStr "")]
  /\ model_invoked (snd (demo_post "{'city': ''}")) = true.
Proof.
  split; [vm_compute; reflexivity|].
  split; [vm_compute; discriminate|].
  split; [vm_compute; discriminate|].
  split; vm_compute; reflexivity.
Qed.

(** C2, amended.  When the body decodes to a value, the request is
    answered with status 400 and error "Missing parameter", the model not
    being called, if the value is falsy or is an object without a "city"
    key; an object with a "city" key is passed to the model with the value
    found under the key, the empty string included. *)
Theorem city_key_presence_gate (E : Env) (r : Request) (v : pyval) :
  data r <> "" -> is_json r = true -> json_loads E (data r) = Some v ->
  ((truthy v = false
    \/ exists d, v = PDict d /\ dict_get "city" d = None) ->
   predict_heatwave E r = (missing_parameter_post, [EvGetJson])
   /\ status_code (fst (predict_heatwave E r)) = 400
   /\ error_field (fst (predict_heatwave E r)) = Some (PStr "Missing parameter")
   /\ model_invoked (snd (predict_heatwave E r)) = false)
  /\ (forall d city, v = PDict d -> dict_get "city" d = Some city ->
      snd (predict_heatwave E r) = [EvGetJson; EvPredict city]
      /\ model_invoked (snd (predict_heatwave E r)) = true
      /\ fst (predict_heatwave E r) <> missing_parameter_post).
Proof.
  intros Hne Hj Hl.
  pose proof (get_json_decoded E r v [] Hj Hl) as Hg. cbn [app] in Hg.
  split.
  - intros Hcase.
    assert (Hrun : predict_heatwave E r = (missing_parameter_post, [EvGetJson])).
    { destruct Hcase as [Hf | [d [-> Hk]]].
      - exact (predict_heatwave_falsy E r v _ Hne Hg Hf).
      - exact (predict_heatwave_no_city_key E r d _ Hne Hg Hk). }
    rewrite Hrun. repeat split.
  - intros d city -> Hk.
    rewrite (predict_heatwave_city_key E r d city _ Hne Hg Hk).
    destruct (model_predict_heatwave E city) as [e|forecast].
    + repeat split. cbn [fst]. unfold missing_parameter_post, error_response.
      intro H; inversion H.
    + destruct (fst (for_each (format_row E) forecast [])) as [e|preds];
        (repeat split; cbn [fst]; unfold missing_parameter_post, error_response;
         intro H; inversion H).
Qed.

Lemma city_key_presence_gate_witness :
  data (mkRequest (dq "{'city': ''}") true) <> ""
  /\ snd (demo_post "{'city': ''}") = [EvGetJson; EvPredict (PStr "")].
Proof.
  split; [discriminate|].
  apply (city_key_presence_gate demo_env (mkRequest (dq "{'city': ''}") true)
           (PDict [("city", PStr "")])) with (d := [("city", PStr "")]).
  - discriminate.
  - reflexivity.
  - vm_compute; reflexivity.
  - reflexivity.
  - reflexivity.
Defined.

(* ================================================================= *)
(** ** The calendar *)

(** The year of the era is recovered from the day of the era. *)
Lemma year_of_era_inversion (yoe doy : Z) :
  0 <= yoe <= 399 ->
  0 <= doy <= 365 ->
  (doy = 365 -> (yoe + 1) mod 4 = 0
                /\ ((yoe + 1) mod 100 <> 0 \/ (yoe + 1) mod 400 = 0)) ->
  0 <= day_of_era yoe doy <= 146096
  /\ (day_of_era yoe doy - day_of_era yoe doy / 1460
      + day_of_era yoe doy / 36524 - day_of_era yoe doy / 146096) / 365 = yoe.
Proof.
  intros Hy Hd Hl. unfold day_of_era.
  Z.div_mod_to_equations. lia.
Qed.

(** [civil_from_days] on a day count given by its era, year of era and
    day of year. *)
Lemma civil_from_days_parts (era yoe doy : Z) :
  0 <= yoe <= 399 ->
  0 <= doy <= 365 ->
  (doy = 365 -> (yoe + 1) mod 4 = 0
                /\ ((yoe + 1) mod 100 <> 0 \/ (yoe + 1) mod 400 = 0)) ->
  civil_from_days (era * 146097 + day_of_era yoe doy - 719468)
  = mkCivil
      (if (if (5 * doy + 2) / 153 <? 10
           then (5 * doy + 2) / 153 + 3 else (5 * doy + 2) / 153 - 9) <=? 2
       then yoe + era * 400 + 1 else yoe + era * 400)
      (if (5 * doy + 2) / 153 <? 10
       then (5 * doy + 2) / 153 + 3 else (5 * doy + 2) / 153 - 9)
      (doy - (153 * ((5 * doy + 2) / 153) + 2) / 5 + 1).
Proof.
  intros Hy Hd Hl.
  destruct (year_of_era_inversion yoe doy Hy Hd Hl) as [Hdoe Hyoe].
  unfold civil_from_days. cbv zeta.
  replace (era * 146097 + day_of_era yoe doy - 719468 + 719468)
    with (era * 146097 + day_of_era yoe doy) by ring.
  assert (Hera : (era * 146097 + day_of_era yoe doy) / 146097 = era).
  { symmetry. apply (Z.div_unique_pos _ _ _ (day_of_era yoe doy)); [lia | ring]. }
  rewrite Hera.
  replace (era * 146097 + day_of_era yoe doy - era * 146097)
    with (day_of_era yoe doy) by ring.
  rewrite Hyoe.
  replace (day_of_era yoe doy - (365 * yoe + yoe / 4 - yoe / 100))
    with doy by (unfold day_of_era; ring).
  reflexivity.
Qed.

(** The day of the March-based year of a calendar day: its range, the
    leap day, and the month it leads back to. *)
Lemma month_parts (y m d : Z) :
  1 <= m <= 12 -> 1 <= d <= days_in_month y m ->
  let y' := if m <=? 2 then y - 1 else y in
  let mp := if 2 <? m then m - 3 else m + 9 in
  let doy := (153 * mp + 2) / 5 + d - 1 in
  0 <= doy <= 365
  /\ (doy = 365 -> (y' - y' / 400 * 400 + 1) mod 4 = 0
                  /\ ((y' - y' / 400 * 400 + 1) mod 100 <> 0
                      \/ (y' - y' / 400 * 400 + 1) mod 400 = 0))
  /\ (5 * doy + 2) / 153 = mp.
Proof.
  intros Hm Hd.
  destruct (Z.leb_spec m 2), (Z.ltb_spec 2 m); try lia; cbv zeta.
  - assert (Hjf : m = 1 \/ m = 2) by lia. destruct Hjf as [-> | ->].
    + change (days_in_month y 1) with 31 in Hd.
      (split; [|split]); Z.div_mod_to_equations; lia.
    + unfold days_in_month, is_leap in Hd.
      change (2 =? 2) with true in Hd. cbv iota in Hd.
      destruct (Z.eqb_spec (y mod 4) 0), (Z.eqb_spec (y mod 100) 0),
        (Z.eqb_spec (y mod 400) 0); cbn [andb orb negb] in Hd;
        (split; [|split]); Z.div_mod_to_equations; lia.
  - unfold days_in_month in Hd.
    destruct (Z.eqb_spec m 2); [lia|].
    destruct (Z.eqb_spec m 4), (Z.eqb_spec m 6), (Z.eqb_spec m 9),
      (Z.eqb_spec m 11); cbn [orb] in Hd; try lia;
      (split; [|split]); Z.div_mod_to_equations; lia.
Qed.

(** The day count of a calendar day leads back to that day. *)
Lemma civil_round_trip (c : civil) :
  valid_civil c = true -> civil_from_days (days_from_civil c) = c.
Proof.
  destruct c as [y m d]. unfold valid_civil.
  cbn [c_year c_month c_day].
  rewrite !andb_true_iff, !Z.leb_le. intros [[[[[Hy1 Hy2] Hm1] Hm2] Hd1] Hd2].
  pose proof (month_parts y m d (conj Hm1 Hm2) (conj Hd1 Hd2)) as Hparts.
  unfold days_from_civil. cbn [c_year c_month c_day]. cbv zeta in *.
  set (y' := if m <=? 2 then y - 1 else y) in *.
  set (mp := if 2 <? m then m - 3 else m + 9) in *.
  set (doy := (153 * mp + 2) / 5 + d - 1) in *.
  destruct Hparts as (Hdoy & Hleap & Hmp).
  assert (Hyoe : 0 <= y' - y' / 400 * 400 <= 399)
    by (Z.div_mod_to_equations; lia).
  change (y' / 400 * 146097
          + ((y' - y' / 400 * 400) * 365 + (y' - y' / 400 * 400) / 4
             - (y' - y' / 400 * 400) / 100 + doy) - 719468)
    with (y' / 400 * 146097 + day_of_era (y' - y' / 400 * 400) doy - 719468).
  rewrite (civil_from_days_parts _ _ _ Hyoe Hdoy Hleap), Hmp.
  replace (y' - y' / 400 * 400 + y' / 400 * 400) with y' by ring.
  subst doy y' mp.
  destruct (Z.leb_spec m 2), (Z.ltb_spec 2 m); try lia.
  - destruct (Z.ltb_spec (m + 9) 10); [lia|].
    destruct (Z.leb_spec (m + 9 - 9) 2); [|lia].
    f_equal; lia.
  - destruct (Z.ltb_spec (m - 3) 10); [|lia].
    destruct (Z.leb_spec (m - 3 + 3) 2); [lia|].
    f_equal; lia.
Qed.

(** Every instant of a calendar day has that day as its calendar day. *)
Lemma civil_of_ns_instant (c : civil) (t : Z) :
  valid_civil c = true ->
  0 <= t < ns_per_day ->
  civil_of_ns (days_from_civil c * ns_per_day + t) = c.
Proof.
  intros Hv Ht. unfold civil_of_ns.
  replace ((days_from_civil c * ns_per_day + t) / ns_per_day)
    with (days_from_civil c); [exact (civil_round_trip c Hv)|].
  apply (Z.div_unique_pos _ _ _ t); [exact Ht | ring].
Qed.

(* ================================================================= *)
(** ** POST /heatwave: formatting the forecast *)

Lemma formatted_date_text (E : Env) (s : string) (ns : Z) :
  to_datetime_text E s = Some ns ->
  formatted_date E (DStr s) = inr (strftime_ymd (civil_of_ns ns)).
Proof.
  intro H. unfold formatted_date, to_date_obj. rewrite H. reflexivity.
Qed.

Lemma formatted_date_numeric (E : Env) (n : Z) :
  iNaT < n <= int64_max ->
  formatted_date E (DNumeric n) = inr (strftime_ymd (civil_of_ns n)).
Proof.
  intros [Hlo Hhi]. unfold formatted_date, to_date_obj, to_datetime_ns.
  assert (Hne : (n =? iNaT) = false) by (apply Z.eqb_neq; lia).
  assert (H1 : (iNaT <? n) = true) by (apply Z.ltb_lt; exact Hlo).
  assert (H2 : (n <=? int64_max) = true) by (apply Z.leb_le; exact Hhi).
  rewrite Hne, H1, H2. reflexivity.
Qed.

Lemma formatted_date_unparseable (E : Env) (d : date_value) :
  unparseable E d = true -> formatted_date E d = inr "N/A".
Proof.
  unfold unparseable, formatted_date, to_date_obj, to_datetime_ns.
  destruct d as [s|ns|c| |n| ]; try discriminate; try reflexivity.
  - destruct (to_datetime_text E s); [discriminate | reflexivity].
  - intro H. rewrite H. reflexivity.
Qed.

Lemma formatted_date_total (E : Env) (d : date_value) :
  date_in_range d = true -> exists s, formatted_date E d = inr s.
Proof.
  unfold date_in_range, formatted_date, to_date_obj, to_datetime_ns.
  destruct d as [s|ns|c| |n| ]; intro H; try (eexists; reflexivity).
  - destruct (to_datetime_text E s); eexists; reflexivity.
  - destruct (n =? iNaT) eqn:Hn; [eexists; reflexivity|].
    apply andb_true_iff in H. destruct H as [H1 H2].
    apply Z.leb_le in H1. apply Z.eqb_neq in Hn.
    assert (H3 : (iNaT <? n) = true) by (apply Z.ltb_lt; lia).
    rewrite H3, H2. eexists; reflexivity.
Qed.

(** The entry of a row whose three conversions go through. *)
Lemma format_row_entry (E : Env) (row : ForecastRow) :
  row_formats E row = true ->
  exists dt z f,
    formatted_date E (time row) = inr dt
    /\ py_int E (is_heatwave row) = inr z
    /\ py_float E (heatwave_probability row) = inr f
    /\ fst (format_row E row []) = inr (entry_of E row)
    /\ entry_of E row =
       PDict
         [("date", PStr dt);
          ("temperature_2m_max", temperature_2m_max row);
          ("apparent_temperature_max", apparent_temperature_max row);
          ("relative_humidity_2m_mean", relative_humidity_2m_mean row);
          ("wind_speed_10m_max", wind_speed_10m_max row);
          ("cloud_cover_mean", cloud_cover_mean row);
          ("precipitation_sum", precipitation_sum row);
          ("is_heatwave", PInt z);
          ("heatwave_probability", PFloat f);
          ("alert_level", alert_level row);
          ("alert_color", alert_color row);
          ("recommended_action", recommended_action row)].
Proof.
  unfold row_formats. rewrite !andb_true_iff. intros [[Hd Hi] Hf].
  destruct (formatted_date_total E _ Hd) as [dt Hdt].
  destruct (py_int E (is_heatwave row)) as [e|z] eqn:Hz; [discriminate Hi|].
  destruct (py_float E (heatwave_probability row)) as [e|f] eqn:Hp;
    [discriminate Hf|].
  exists dt, z, f.
  assert (Hrun : fst (format_row E row []) = inr (PDict
         [("date", PStr dt);
          ("temperature_2m_max", temperature_2m_max row);
          ("apparent_temperature_max", apparent_temperature_max row);
          ("relative_humidity_2m_mean", relative_humidity_2m_mean row);
          ("wind_speed_10m_max", wind_speed_10m_max row);
          ("cloud_cover_mean", cloud_cover_mean row);
          ("precipitation_sum", precipitation_sum row);
          ("is_heatwave", PInt z);
          ("heatwave_probability", PFloat f);
          ("alert_level", alert_level row);
          ("alert_color", alert_color row);
          ("recommended_action", recommended_action row)])).
  { unfold format_row, bind, lift. rewrite Hdt, Hz, Hp. reflexivity. }
  unfold entry_of. rewrite Hrun. repeat split; assumption || reflexivity.
Qed.

Lemma for_each_format_row_success (E : Env) (rows : list ForecastRow) :
  Forall (fun row => row_formats E row = true) rows ->
  fst (for_each (format_row E) rows []) = inr (map (entry_of E) rows).
Proof.
  induction 1 as [|row rows Hrow _ IH]; [reflexivity|].
  destruct (format_row_entry E row Hrow) as (dt & z & f & _ & _ & _ & Hrun & _).
  cbn [for_each map]. unfold bind.
  rewrite (format_row_trace E row []), Hrun.
  rewrite (for_each_format_row_trace E rows []), IH. reflexivity.
Qed.

(** A request that passes the checks, for a city the model answers with
    rows whose conversions go through, is answered with status 200 and
    one entry per row, in row order. *)
Lemma predict_heatwave_success (E : Env) (r : Request)
  (d : list (string * pyval)) (city : pyval) (rows : list ForecastRow) :
  data r <> "" -> is_json r = true ->
  json_loads E (data r) = Some (PDict d) ->
  dict_get "city" d = Some city ->
  model_predict_heatwave E city = inr rows ->
  Forall (fun row => row_formats E row = true) rows ->
  predict_heatwave E r
  = (success_response city (map (entry_of E) rows), [EvGetJson; EvPredict city]).
Proof.
  intros Hne Hj Hl Hk Hm Hrows.
  rewrite (predict_heatwave_city_key E r d city [EvGetJson] Hne
             (get_json_decoded E r _ [] Hj Hl) Hk).
  rewrite Hm, (for_each_format_row_success E rows Hrows). reflexivity.
Qed.

Lemma inr_text_inj (a b : string) : @inr exn string a = inr b -> a = b.
Proof. intro H. injection H as H. exact H. Qed.

Lemma digit_of_char (z : Z) : digit_of (digit_char z) = Some (z mod 10).
Proof.
  unfold digit_of, is_digit, digit_val, digit_char.
  pose proof (Z.mod_pos_bound z 10 ltac:(lia)) as Hb.
  rewrite nat_ascii_embedding by lia.
  assert (H1 : Nat.leb 48 (48 + Z.to_nat (z mod 10)) = true)
    by (apply Nat.leb_le; lia).
  assert (H2 : Nat.leb (48 + Z.to_nat (z mod 10)) 57 = true)
    by (apply Nat.leb_le; lia).
  rewrite H1, H2. cbn [andb]. f_equal. lia.
Qed.

(** The text written for a valid calendar day reads back as that day. *)
Lemma strftime_ymd_reads_back (c : civil) :
  valid_civil c = true -> calendar_day_text (strftime_ymd c) = Some c.
Proof.
  destruct c as [y m d]. unfold valid_civil. cbn [c_year c_month c_day].
  rewrite !andb_true_iff, !Z.leb_le.
  intros [[[[[Hy1 Hy2] Hm1] Hm2] Hd1] Hd2].
  assert (Hd31 : d <= 31).
  { eapply Z.le_trans; [exact Hd2|]. unfold days_in_month.
    destruct (_ =? 2); [destruct (is_leap _); lia|]. destruct (_ || _); lia. }
  unfold strftime_ymd, pad4, pad2. cbn [c_year c_month c_day String.append].
  unfold calendar_day_text. rewrite !digit_of_char.
  change (Ascii.eqb "-" "-") with true. cbn [andb].
  f_equal. f_equal; Z.div_mod_to_equations; lia.
Qed.




Lemma is_flag_int (E : Env) (v : pyval) :
  is_flag v = true -> exists z, py_int E v = inr z /\ (z = 0 \/ z = 1).
Proof.
  destruct v as [|b|z|f|s|l|d]; try discriminate; cbn [is_flag py_int].
  - intros _. exists (py_bool_Z b). split; [reflexivity|].
    destruct b; [right | left]; reflexivity.
  - intro H. exists z. split; [reflexivity|].
    apply orb_true_iff in H. destruct H as [H|H]; apply Z.eqb_eq in H; lia.
Qed.

Lemma is_probability_float (E : Env) (v : pyval) :
  is_probability v = true ->
  exists q, py_float E v = inr (FFin q)
            /\ (inject_Z 0 <= q)%Q /\ (q <= inject_Z 1)%Q.
Proof.
  destruct v as [| | |[|q]| | |]; try discriminate; cbn [is_probability py_float].
  intro H. apply andb_true_iff in H. destruct H as [H0 H1].
  exists q. split; [reflexivity|].
  split; now apply Qle_bool_iff.
Qed.


(* ================================================================= *)
(** ** GET /api/historical: how a request is routed through the checks *)

Lemma get_historical_data_no_city (E : Env) (arg : option string) :
  arg = None \/ arg = Some "" ->
  get_historical_data E arg = (no_city_response, []).
Proof. intros [-> | ->]; reflexivity. Qed.

Lemma get_historical_data_no_file (E : Env) (city : string) :
  city <> "" ->
  model_data_file E = None
  \/ (exists path, model_data_file E = Some path /\ path_exists E path = false) ->
  fst (get_historical_data E (Some city)) = no_file_response.
Proof.
  intros Hc H.
  unfold get_historical_data, except_Exception, get_historical_data_try.
  rewrite (eqb_nonempty _ Hc).
  destruct H as [-> | [path [-> Hp]]]; [reflexivity|].
  unfold bind, tell. rewrite Hp. reflexivity.
Qed.

Lemma get_historical_data_read_fails (E : Env) (city path : string) (e : exn) :
  city <> "" -> model_data_file E = Some path -> path_exists E path = true ->
  read_csv E path = inl e ->
  fst (get_historical_data_try E (Some city) []) = inl e.
Proof.
  intros Hc Hf Hp Hr. unfold get_historical_data_try.
  rewrite (eqb_nonempty _ Hc), Hf. unfold bind, tell, lift. rewrite Hp, Hr.
  reflexivity.
Qed.

Lemma get_historical_data_read (E : Env) (city path : string)
  (rows : list HistoricalRecord) :
  city <> "" -> model_data_file E = Some path -> path_exists E path = true ->
  read_csv E path = inr rows ->
  get_historical_data E (Some city)
  = (match rows_of_city city rows with
     | [] => error_response "Data not found"
               ("No historical data available for " ++ city) 404
     | _ :: _ => historical_response city (formatted_data (rows_of_city city rows))
     end,
     [EvPathExists path; EvReadCsv path]).
Proof.
  intros Hc Hf Hp Hr.
  unfold get_historical_data, except_Exception, get_historical_data_try.
  rewrite (eqb_nonempty _ Hc), Hf. unfold bind, tell, lift. rewrite Hp, Hr.
  cbn [negb ret app]. destruct (rows_of_city city rows); reflexivity.
Qed.

Lemma prefix_refl (k : string) : prefix k k = true.
Proof.
  induction k as [|a k IH]; [reflexivity|].
  cbn [prefix]. destruct (ascii_dec a a); [exact IH | contradiction].
Qed.

Lemma contains_after (p k : string) : contains k (p ++ k) = true.
Proof.
  induction p as [|a p IH].
  - cbn [String.append]. destruct k; cbn [contains]; rewrite prefix_refl; reflexivity.
  - cbn [String.append contains]. rewrite IH.
    destruct (prefix k (String a (p ++ k))); reflexivity.
Qed.

(** C6.  The checks of GET /api/historical come in order: without a
    city, 400 "Missing parameter"; else without a data file, 404 "Data not
    available"; else without a record of the city, 404 "Data not found"
    with the city named in the message; only after all three is the
    summary computed. *)
Theorem historical_checks_in_order (E : Env) (arg : option string) :
  ((arg = None \/ arg = Some "") ->
   get_historical_data E arg = (no_city_response, [])
   /\ status_code (fst (get_historical_data E arg)) = 400
   /\ error_field (fst (get_historical_data E arg)) = Some (PStr "Missing parameter"))
  /\ (forall city,
        arg = Some city -> city <> "" ->
        (model_data_file E = None
         \/ exists path, model_data_file E = Some path /\ path_exists E path = false) ->
        status_code (fst (get_historical_data E arg)) = 404
        /\ error_field (fst (get_historical_data E arg))
           = Some (PStr "Data not available"))
  /\ (forall city path rows,
        arg = Some city -> city <> "" ->
        model_data_file E = Some path -> path_exists E path = true ->
        read_csv E path = inr rows ->
        rows_of_city city rows = [] ->
        status_code (fst (get_historical_data E arg)) = 404
        /\ error_field (fst (get_historical_data E arg)) = Some (PStr "Data not found")
        /\ exists msg, field "message" (fst (get_historical_data E arg)) = Some (PStr msg)
                       /\ contains city msg = true)
  /\ (status_code (fst (get_historical_data E arg)) = 200 ->
      exists city path rows,
        arg = Some city /\ city <> ""
        /\ model_data_file E = Some path /\ path_exists E path = true
        /\ read_csv E path = inr rows
        /\ rows_of_city city rows <> []
        /\ fst (get_historical_data E arg)
           = historical_response city (formatted_data (rows_of_city city rows))).
Proof.
  split; [|split; [|split]].
  - intro H. rewrite (get_historical_data_no_city E arg H). repeat split.
  - intros city -> Hc H. rewrite (get_historical_data_no_file E city Hc H).
    split; reflexivity.
  - intros city path rows -> Hc Hf Hp Hr Hz.
    rewrite (get_historical_data_read E city path rows Hc Hf Hp Hr), Hz.
    split; [reflexivity | split; [reflexivity|]].
    exists ("No historical data available for " ++ city).
    split; [reflexivity | apply contains_after].
  - destruct arg as [city|]; [|intro H; discriminate H].
    destruct (String.eqb city "") eqn:Hc.
    { apply String.eqb_eq in Hc. subst city. intro H; discriminate H. }
    apply String.eqb_neq in Hc.
    destruct (model_data_file E) as [path|] eqn:Hf.
    2:{ rewrite (get_historical_data_no_file E city Hc) by (left; exact Hf).
        intro H; discriminate H. }
    destruct (path_exists E path) eqn:Hp.
    2:{ rewrite (get_historical_data_no_file E city Hc)
          by (right; exists path; split; assumption).
        intro H; discriminate H. }
    destruct (read_csv E path) as [e|rows] eqn:Hr.
    { unfold get_historical_data, except_Exception.
      pose proof (get_historical_data_read_fails E city path e Hc Hf Hp Hr) as Hx.
      destruct (get_historical_data_try E (Some city) []) as [[e'|resp] t];
        cbn [fst] in Hx; [|discriminate Hx].
      intro H; discriminate H. }
    rewrite (get_historical_data_read E city path rows Hc Hf Hp Hr).
    destruct (rows_of_city city rows) as [|row rest] eqn:Hrows;
      [intro H; discriminate H|].
    intros _. exists city, path, rows.
    rewrite Hrows. repeat split; try assumption. discriminate.
Qed.

Lemma historical_checks_in_order_witness :
  rows_of_city "Unknown" demo_dataset = []
  /\ status_code (fst (demo_get "Unknown")) = 404
  /\ error_field (fst (demo_get "Unknown")) = Some (PStr "Data not found").
Proof.
  split; [reflexivity|].
  destruct (historical_checks_in_order demo_env (Some "Unknown"))
    as (_ & _ & Hnone & _).
  destruct (Hnone "Unknown" "heatwave_data.csv" demo_dataset) as (H1 & H2 & _);
    try reflexivity; [discriminate|].
  split; [exact H1 | exact H2].
Defined.

(* ================================================================= *)
(** ** Aggregates and distinct years *)

Lemma Qmax2_cases (a b : Q) :
  (Qmax2 a b = a \/ Qmax2 a b = b) /\ (a <= Qmax2 a b)%Q /\ (b <= Qmax2 a b)%Q.
Proof.
  unfold Qmax2. destruct (Qle_bool a b) eqn:H.
  - apply Qle_bool_iff in H. repeat split; [now right | exact H | apply Qle_refl].
  - assert (Hlt : (b < a)%Q).
    { apply Qnot_le_lt. intro Hle. apply Qle_bool_iff in Hle. congruence. }
    repeat split; [now left | apply Qle_refl | now apply Qlt_le_weak].
Qed.

Lemma Qmin2_cases (a b : Q) :
  (Qmin2 a b = a \/ Qmin2 a b = b) /\ (Qmin2 a b <= a)%Q /\ (Qmin2 a b <= b)%Q.
Proof.
  unfold Qmin2. destruct (Qle_bool b a) eqn:H.
  - apply Qle_bool_iff in H. repeat split; [now right | exact H | apply Qle_refl].
  - assert (Hlt : (a < b)%Q).
    { apply Qnot_le_lt. intro Hle. apply Qle_bool_iff in Hle. congruence. }
    repeat split; [now left | apply Qle_refl | now apply Qlt_le_weak].
Qed.

Lemma fold_Qmax2_maximum (r : list Q) (x : Q) :
  is_maximum (fold_left Qmax2 r x) (x :: r).
Proof.
  revert x. induction r as [|a r IH]; intro x; cbn [fold_left].
  - split; [now left|]. intros y [<-|[]]. apply Qle_refl.
  - destruct (IH (Qmax2 x a)) as [Hin Hub].
    destruct (Qmax2_cases x a) as [Hc [Hx Ha]].
    split.
    + destruct Hin as [Hin|Hin].
      * rewrite <- Hin. destruct Hc as [-> | ->]; [now left | right; now left].
      * right; right; exact Hin.
    + intros y [<-|[<-|Hy]].
      * eapply Qle_trans; [exact Hx|]. apply Hub. now left.
      * eapply Qle_trans; [exact Ha|]. apply Hub. now left.
      * apply Hub. now right.
Qed.

Lemma fold_Qmin2_minimum (r : list Q) (x : Q) :
  is_minimum (fold_left Qmin2 r x) (x :: r).
Proof.
  revert x. induction r as [|a r IH]; intro x; cbn [fold_left].
  - split; [now left|]. intros y [<-|[]]. apply Qle_refl.
  - destruct (IH (Qmin2 x a)) as [Hin Hlb].
    destruct (Qmin2_cases x a) as [Hc [Hx Ha]].
    split.
    + destruct Hin as [Hin|Hin].
      * rewrite <- Hin. destruct Hc as [-> | ->]; [now left | right; now left].
      * right; right; exact Hin.
    + intros y [<-|[<-|Hy]].
      * eapply Qle_trans; [|exact Hx]. apply Hlb. now left.
      * eapply Qle_trans; [|exact Ha]. apply Hlb. now left.
      * apply Hlb. now right.
Qed.

Lemma series_max_maximum (col : list pyfloat) :
  dropna col <> [] ->
  exists m, series_max col = FFin m /\ is_maximum m (dropna col).
Proof.
  unfold series_max. destruct (dropna col) as [|x r]; [congruence|].
  intros _. exists (fold_left Qmax2 r x). split; [reflexivity|].
  apply fold_Qmax2_maximum.
Qed.

Lemma series_min_minimum (col : list pyfloat) :
  dropna col <> [] ->
  exists m, series_min col = FFin m /\ is_minimum m (dropna col).
Proof.
  unfold series_min. destruct (dropna col) as [|x r]; [congruence|].
  intros _. exists (fold_left Qmin2 r x). split; [reflexivity|].
  apply fold_Qmin2_minimum.
Qed.

Lemma wrap64_small (z : Z) :
  - 9223372036854775808 <= z <= int64_max -> wrap64 z = z.
Proof.
  unfold wrap64, int64_max. intro H.
  rewrite Z.mod_small by lia. lia.
Qed.

Lemma heatwave_day_count_le (g : list HistoricalRecord) :
  (heatwave_day_count g <= List.length g)%nat.
Proof. unfold heatwave_day_count. apply filter_length_le. Qed.

(** On 0/1 flags the sum of the flags is the number of flagged records. *)
Lemma Ztotal_counts (g : list HistoricalRecord) :
  Forall (fun r => binary_flag r = true) g ->
  Ztotal (map h_is_heatwave g) = Z.of_nat (heatwave_day_count g).
Proof.
  unfold heatwave_day_count, Ztotal.
  induction 1 as [|r g Hr _ IH]; [reflexivity|].
  cbn [map fold_right filter]. rewrite IH.
  unfold binary_flag in Hr. apply orb_true_iff in Hr.
  destruct Hr as [Hr|Hr]; apply Z.eqb_eq in Hr; rewrite Hr.
  - change (0 =? 1) with false. lia.
  - change (1 =? 1) with true. cbn [List.length]. lia.
Qed.

(** On 0/1 flags, and fewer records than a 64-bit integer counts, the
    column sum is the number of flagged records. *)
Lemma flag_sum_counts (g : list HistoricalRecord) :
  Forall (fun r => binary_flag r = true) g ->
  Z.of_nat (List.length g) <= int64_max ->
  int_series_sum (map h_is_heatwave g) = Z.of_nat (heatwave_day_count g).
Proof.
  intros Hf Hlen. unfold int_series_sum. rewrite (Ztotal_counts g Hf).
  apply wrap64_small. pose proof (heatwave_day_count_le g). lia.
Qed.

Lemma seen_iff (x : Z) (seen : list Z) :
  existsb (Z.eqb x) seen = true <-> In x seen.
Proof.
  rewrite existsb_exists. split.
  - intros [y [Hy He]]. apply Z.eqb_eq in He. now subst.
  - intro H. exists x. split; [exact H | apply Z.eqb_refl].
Qed.

Lemma unique_from_In (l seen : list Z) (x : Z) :
  In x (unique_from seen l) <-> In x l /\ ~ In x seen.
Proof.
  revert seen. induction l as [|a l IH]; intro seen; cbn [unique_from].
  - split; [intros [] | intros [[] _]].
  - destruct (existsb (Z.eqb a) seen) eqn:Hs.
    + apply seen_iff in Hs. rewrite IH. split.
      * intros [H1 H2]. split; [now right | exact H2].
      * intros [[<-|H1] H2]; [contradiction | now split].
    + assert (Hn : ~ In a seen).
      { intro H. apply seen_iff in H. congruence. }
      cbn [In]. rewrite IH. cbn [In]. split.
      * intros [<-|[H1 H2]]; [split; [now left | exact Hn]|].
        split; [now right | tauto].
      * intros [[<-|H1] H2]; [now left|].
        destruct (Z.eq_dec a x) as [->|Hne]; [now left|].
        right. split; [exact H1|]. intros [H|H]; [congruence | contradiction].
Qed.

Lemma unique_In (l : list Z) (x : Z) : In x (unique l) <-> In x l.
Proof. unfold unique. rewrite unique_from_In. cbn [In]. tauto. Qed.

Lemma unique_from_NoDup (l seen : list Z) : NoDup (unique_from seen l).
Proof.
  revert seen. induction l as [|a l IH]; intro seen; cbn [unique_from].
  - constructor.
  - destruct (existsb (Z.eqb a) seen); [apply IH|].
    constructor; [|apply IH].
    rewrite unique_from_In. cbn [In]. tauto.
Qed.

(** Records listed by non-decreasing year give strictly increasing
    distinct years. *)
Lemma unique_from_sorted (l seen : list Z) :
  StronglySorted Z.le l ->
  StronglySorted Z.lt (unique_from seen l).
Proof.
  intro Hs. revert seen.
  induction Hs as [|a l Hl IH Ha]; intro seen; cbn [unique_from].
  - constructor.
  - destruct (existsb (Z.eqb a) seen); [apply IH|].
    constructor; [apply IH|].
    rewrite Forall_forall in *. intros x Hx.
    apply unique_from_In in Hx. destruct Hx as [Hx Hn]. cbn [In] in Hn.
    specialize (Ha x Hx). assert (a <> x) by tauto. lia.
Qed.

(* ================================================================= *)
(** ** GET /api/historical: the year summaries *)

(** Selecting by city, then by year, gives the group of the city and
    the year. *)
Lemma rows_of_year_city (city : string) (y : Z) (rows : list HistoricalRecord) :
  rows_of_year y (rows_of_city city rows) = group_of city y rows.
Proof.
  unfold rows_of_year, rows_of_city, group_of.
  induction rows as [|r rows IH]; [reflexivity|].
  cbn [filter]. destruct (String.eqb (h_city r) city); cbn [andb filter].
  - destruct (h_year r =? y); [rewrite IH|]; [reflexivity | exact IH].
  - exact IH.
Qed.

Lemma dropna_present (f : HistoricalRecord -> pyfloat) (g : list HistoricalRecord) :
  dropna (map f g) = present_cells f g.
Proof.
  unfold dropna. induction g as [|r g IH]; [reflexivity|].
  cbn [map flat_map present_cells]. rewrite IH. destruct (f r); reflexivity.
Qed.

Lemma Qsum_total (l : list Q) : total_is l (Qsum l).
Proof.
  unfold Qsum. induction l as [|x l IH]; [constructor|].
  cbn [fold_right]. constructor. exact IH.
Qed.

Lemma series_sum_total (col : list pyfloat) :
  exists p s, series_sum col = FFin p /\ total_is (dropna col) s /\ (p == s)%Q.
Proof.
  exists (Qsum (dropna col)), (Qsum (dropna col)).
  split; [reflexivity | split; [apply Qsum_total | reflexivity]].
Qed.

Lemma series_mean_is (col : list pyfloat) :
  dropna col <> [] ->
  exists m, series_mean col = FFin m /\ mean_is (dropna col) m.
Proof.
  intro Hne. unfold series_mean, mean_is.
  destruct (dropna col) as [|x r] eqn:Hd; [congruence|].
  eexists. split; [reflexivity|]. split; [discriminate|].
  exists (Qsum (x :: r)). split; [apply Qsum_total|].
  rewrite Qmult_comm. apply Qmult_div_r.
  unfold Qeq. cbn [List.length Qnum Qden inject_Z]. lia.
Qed.

Lemma series_empty (col : list pyfloat) :
  dropna col = [] ->
  series_max col = FNaN /\ series_min col = FNaN /\ series_mean col = FNaN.
Proof.
  intro H. unfold series_max, series_min, series_mean. rewrite H.
  repeat split.
Qed.

Lemma group_year_occurs (city : string) (y : Z) (rows : list HistoricalRecord) :
  group_of city y rows <> [] -> In y (map h_year (rows_of_city city rows)).
Proof.
  intro Hne. destruct (group_of city y rows) as [|r g] eqn:Hg; [congruence|].
  assert (Hin : In r (group_of city y rows)) by (rewrite Hg; now left).
  unfold group_of in Hin. apply filter_In in Hin. destruct Hin as [Hr Hc].
  apply andb_true_iff in Hc. destruct Hc as [Hc Hy]. apply Z.eqb_eq in Hy.
  apply in_map_iff. exists r. split; [exact Hy|].
  unfold rows_of_city. apply filter_In. split; assumption.
Qed.




(** The same year, computed: maximum 35, minimum 30, mean 97/3, which is
    within a hundredth of 32.33. *)
Example year_2020_summary :
  year_summary (rows_of_city "X" demo_dataset) 2020
  = PDict [("year", PInt 2020);
           ("max_temp", PFloat (FFin (inject_Z 35)));
           ("min_temp", PFloat (FFin (inject_Z 30)));
           ("avg_temp", PFloat (FFin (97 # 3)));
           ("heatwave_days", PInt 1);
           ("precipitation", PFloat (FFin (12 # 8)));
           ("humidity", PFloat (FFin (120 # 3)))]
  /\ (3232 # 100 <= 97 # 3)%Q /\ (97 # 3 <= 3234 # 100)%Q.
Proof.
  split; [vm_compute; reflexivity|].
  split; vm_compute; discriminate.
Qed.

(* ================================================================= *)
(** ** GET /api/historical: the order of the entries *)

Lemma summary_year_of (city_data : list HistoricalRecord) (y : Z) :
  summary_year (year_summary city_data y) = Some y.
Proof. reflexivity. Qed.

Lemma response_years_of (city : string) (city_data : list HistoricalRecord) :
  response_years (historical_response city (formatted_data city_data))
  = map Some (unique (map h_year city_data)).
Proof.
  unfold response_years.
  change (field "historical_data"
            (historical_response city (formatted_data city_data)))
    with (Some (PList (formatted_data city_data))).
  cbv beta iota. unfold formatted_data.
  rewrite map_map. apply map_ext. intro y. apply summary_year_of.
Qed.

(** Distinct values come in the order of their first occurrence: the
    distinct values of a prefix open the distinct values of the whole. *)
Lemma unique_from_prefix (l1 l2 seen : list Z) :
  exists seen',
    unique_from seen (l1 ++ l2)%list
    = (unique_from seen l1 ++ unique_from seen' l2)%list.
Proof.
  revert seen. induction l1 as [|a l1 IH]; intro seen.
  - exists seen. reflexivity.
  - cbn [app unique_from]. destruct (existsb (Z.eqb a) seen).
    + apply IH.
    + destruct (IH (a :: seen)) as [seen' H]. exists seen'.
      rewrite H. reflexivity.
Qed.

(** C8, as stated, fails: the records of city X list 2021 before 2020,
    and so does the answer. *)
Lemma historical_years_not_ascending :
  status_code (fst (demo_get "X")) = 200
  /\ response_years (fst (demo_get "X")) = [Some 2021; Some 2020]
  /\ ~ Sorted Z.lt [2021; 2020].
Proof.
  split; [reflexivity|]. split; [vm_compute; reflexivity|].
  intro H. inversion H as [|a l Hs Hh]; subst.
  inversion Hh as [|b l' Hlt]; subst. lia.
Qed.

(** C8, amended.  The entries of [historical_data] carry the distinct
    years of the city's records, each once, in the order in which the
    years first occur in the data file; they are in ascending year order
    when the file lists the city's records by non-decreasing year. *)
Theorem historical_years_in_file_order (E : Env) (city path : string)
  (rows : list HistoricalRecord) :
  city <> "" ->
  model_data_file E = Some path -> path_exists E path = true ->
  read_csv E path = inr rows ->
  rows_of_city city rows <> [] ->
  response_years (fst (get_historical_data E (Some city)))
  = map Some (unique (map h_year (rows_of_city city rows)))
  /\ NoDup (unique (map h_year (rows_of_city city rows)))
  /\ (forall y, In y (unique (map h_year (rows_of_city city rows)))
                <-> In y (map h_year (rows_of_city city rows)))
  /\ (forall l1 l2, map h_year (rows_of_city city rows) = (l1 ++ l2)%list ->
        exists rest,
          unique (map h_year (rows_of_city city rows)) = (unique l1 ++ rest)%list)
  /\ (Sorted Z.le (map h_year (rows_of_city city rows)) ->
      Sorted Z.lt (unique (map h_year (rows_of_city city rows)))).
Proof.
  intros Hc Hf Hp Hr Hne.
  split; [|split; [|split; [|split]]].
  - rewrite (get_historical_data_read E city path rows Hc Hf Hp Hr).
    destruct (rows_of_city city rows) as [|row rest] eqn:Hrows; [congruence|].
    cbn [fst]. apply response_years_of.
  - apply unique_from_NoDup.
  - intro y. apply unique_In.
  - intros l1 l2 ->. unfold unique.
    destruct (unique_from_prefix l1 l2 []) as [seen' H].
    exists (unique_from seen' l2). exact H.
  - intro Hs. apply StronglySorted_Sorted. apply unique_from_sorted.
    apply Sorted_StronglySorted; [|exact Hs].
    intros a b c; apply Z.le_trans.
Qed.

Lemma historical_years_in_file_order_witness :
  rows_of_city "X" demo_dataset <> []
  /\ response_years (fst (demo_get "X"))
     = map Some (unique [2021; 2020; 2020; 2020; 2021]).
Proof.
  split; [discriminate|].
  apply (historical_years_in_file_order demo_env "X" "heatwave_data.csv"
           demo_dataset); try reflexivity; discriminate.
Defined.

(* ================================================================= *)
(** ** The error envelope *)

Lemma error_response_envelope (err msg : string) (code : Z) :
  is_error_envelope (error_response err msg code).
Proof.
  unfold is_error_envelope. split; [reflexivity|]. split; [reflexivity|].
  exists err, msg. split; reflexivity.
Qed.

Lemma except_Exception_cases (msg : string) (m : M Response) :
  (exists resp, fst (m []) = inr resp /\ fst (except_Exception msg m) = resp)
  \/ (exists e, raised m e
                /\ fst (except_Exception msg m) = error_response (exn_str e) msg 500).
Proof.
  unfold except_Exception, raised.
  destruct (m []) as [[e|resp] t]; [right; exists e | left; exists resp];
    split; reflexivity.
Qed.

(** What the [try] block of POST /heatwave can return. *)
Lemma predict_heatwave_try_returns (E : Env) (r : Request) (resp : Response) :
  fst (predict_heatwave_try E r []) = inr resp ->
  resp = error_response "Empty request body" "Request must contain JSON data" 400
  \/ resp = missing_parameter_post
  \/ exists city preds, resp = success_response city preds.
Proof.
  destruct (String.eqb (data r) "") eqn:Hd.
  - unfold predict_heatwave_try. rewrite Hd. intro H. injection H as <-. now left.
  - apply String.eqb_neq in Hd.
    destruct (get_json E r []) as [[e|v] t1] eqn:Hg.
    + rewrite (predict_heatwave_try_get_json_raises E r e t1 Hd Hg).
      intro H; discriminate H.
    + rewrite (predict_heatwave_try_decoded E r v t1 Hd Hg).
      unfold after_decoding, bind, lift, tell.
      destruct (negb (truthy v)).
      { intro H. injection H as <-. right; now left. }
      destruct (py_contains_city v) as [e|[|]]; cbn [raise ret negb fst].
      * intro H; discriminate H.
      * destruct (py_getitem_city v) as [e|city]; cbn [raise ret fst];
          [intro H; discriminate H|].
        destruct (model_predict_heatwave E city) as [e|forecast];
          cbn [raise ret fst]; [intro H; discriminate H|].
        rewrite for_each_format_row_trace.
        destruct (fst (for_each (format_row E) forecast [])) as [e|preds];
          cbn [fst]; [intro H; discriminate H|].
        intro H. injection H as <-. right; right. exists city, preds. reflexivity.
      * intro H. injection H as <-. right; now left.
Qed.

(** What the [try] block of GET /api/historical can return. *)
Lemma get_historical_data_try_returns (E : Env) (arg : option string)
  (resp : Response) :
  fst (get_historical_data_try E arg []) = inr resp ->
  resp = no_city_response
  \/ resp = no_file_response
  \/ (exists city, resp = error_response "Data not found"
                          ("No historical data available for " ++ city) 404)
  \/ exists city entries, resp = historical_response city entries.
Proof.
  unfold get_historical_data_try.
  destruct arg as [city|]; [|intro H; injection H as <-; now left].
  destruct (String.eqb city ""); [intro H; injection H as <-; now left|].
  destruct (model_data_file E) as [path|];
    [|intro H; injection H as <-; right; now left].
  unfold bind, tell, lift.
  destruct (path_exists E path); cbn [negb ret fst];
    [|intro H; injection H as <-; right; now left].
  destruct (read_csv E path) as [e|rows]; cbn [raise ret fst];
    [intro H; discriminate H|].
  destruct (rows_of_city city rows) as [|row rest] eqn:Hrows; cbn [fst];
    intro H; injection H as <-.
  - right; right; left. exists city. reflexivity.
  - right; right; right. exists city, (formatted_data (row :: rest)). reflexivity.
Qed.

(** X14.  The envelope, by the branch the route takes.  An answer of either
    route that is not a 200 is an object with exactly the keys error,
    message and status, with status "error"; its code is 400 where a
    validator rejects, 404 where a data check fails and 500 where the
    [try] block raises; an exception raised by the model, by the
    conversion of a row or by the reading of the data file is caught and
    answered with code 500 and the exception's text as the error.  The
    code is that of the branch, which need not be that of the request's
    fault. *)
Theorem error_envelope_invariant (E : Env) :
  (forall r : Request,
      status_code (fst (predict_heatwave E r)) = 200
      \/ is_error_envelope (fst (predict_heatwave E r))
         /\ exists cls err,
              error_field (fst (predict_heatwave E r)) = Some (PStr err)
              /\ status_code (fst (predict_heatwave E r)) = http_status cls
              /\ post_fault E r cls err)
  /\ (forall arg : option string,
        status_code (fst (get_historical_data E arg)) = 200
        \/ is_error_envelope (fst (get_historical_data E arg))
           /\ exists cls err,
                error_field (fst (get_historical_data E arg)) = Some (PStr err)
                /\ status_code (fst (get_historical_data E arg)) = http_status cls
                /\ get_fault E arg cls err)
  /\ (forall (r : Request) (e : exn),
        raised (predict_heatwave_try E r) e ->
        fst (predict_heatwave E r)
        = error_response (exn_str e) "Failed to process your request" 500)
  /\ (forall (arg : option string) (e : exn),
        raised (get_historical_data_try E arg) e ->
        fst (get_historical_data E arg)
        = error_response (exn_str e) "Failed to fetch historical data" 500)
  /\ (forall (r : Request) (d : list (string * pyval)) (city : pyval) (e : exn),
        data r <> "" -> is_json r = true ->
        json_loads E (data r) = Some (PDict d) -> dict_get "city" d = Some city ->
        model_predict_heatwave E city = inl e ->
        raised (predict_heatwave_try E r) e)
  /\ (forall (r : Request) (d : list (string * pyval)) (city : pyval)
             (rows : list ForecastRow) (e : exn),
        data r <> "" -> is_json r = true ->
        json_loads E (data r) = Some (PDict d) -> dict_get "city" d = Some city ->
        model_predict_heatwave E city = inr rows ->
        fst (for_each (format_row E) rows []) = inl e ->
        raised (predict_heatwave_try E r) e)
  /\ (forall (city path : string) (e : exn),
        city <> "" ->
        model_data_file E = Some path -> path_exists E path = true ->
        read_csv E path = inl e ->
        raised (get_historical_data_try E (Some city)) e).
Proof.
  split; [|split; [|split; [|split; [|split; [|split]]]]].
  - intro r. unfold predict_heatwave.
    destruct (except_Exception_cases "Failed to process your request"
                (predict_heatwave_try E r)) as [[resp [Hret ->]] | [e [He ->]]].
    + destruct (predict_heatwave_try_returns E r resp Hret)
        as [-> | [-> | [city [preds ->]]]].
      * right. split; [apply error_response_envelope|].
        exists ClientInputError, "Empty request body".
        split; [reflexivity | split; [reflexivity | now left]].
      * right. split; [apply error_response_envelope|].
        exists ClientInputError, "Missing parameter".
        split; [reflexivity | split; [reflexivity | right; now left]].
      * now left.
    + right. split; [apply error_response_envelope|].
      exists UnexpectedError, (exn_str e).
      split; [reflexivity | split; [reflexivity|]]. exists e. now split.
  - intro arg. unfold get_historical_data.
    destruct (except_Exception_cases "Failed to fetch historical data"
                (get_historical_data_try E arg)) as [[resp [Hret ->]] | [e [He ->]]].
    + destruct (get_historical_data_try_returns E arg resp Hret)
        as [-> | [-> | [[city ->] | [city [entries ->]]]]].
      * right. split; [apply error_response_envelope|].
        exists ClientInputError, "Missing parameter".
        split; [reflexivity | split; reflexivity].
      * right. split; [apply error_response_envelope|].
        exists NotFoundError, "Data not available".
        split; [reflexivity | split; [reflexivity | now left]].
      * right. split; [apply error_response_envelope|].
        exists NotFoundError, "Data not found".
        split; [reflexivity | split; [reflexivity | right; now left]].
      * now left.
    + right. split; [apply error_response_envelope|].
      exists UnexpectedError, (exn_str e).
      split; [reflexivity | split; [reflexivity|]]. exists e. now split.
  - intros r e He. unfold predict_heatwave, except_Exception. unfold raised in He.
    destruct (predict_heatwave_try E r []) as [[e'|resp] t]; cbn [fst] in *;
      [injection He as ->; reflexivity | discriminate He].
  - intros arg e He. unfold get_historical_data, except_Exception.
    unfold raised in He.
    destruct (get_historical_data_try E arg []) as [[e'|resp] t]; cbn [fst] in *;
      [injection He as ->; reflexivity | discriminate He].
  - intros r d city e Hne Hj Hl Hk Hm. unfold raised.
    rewrite (predict_heatwave_try_decoded E r _ _ Hne (get_json_decoded E r _ [] Hj Hl)).
    rewrite (after_decoding_city_key E d city _ Hk), Hm. reflexivity.
  - intros r d city rows e Hne Hj Hl Hk Hm Hfmt. unfold raised.
    rewrite (predict_heatwave_try_decoded E r _ _ Hne (get_json_decoded E r _ [] Hj Hl)).
    rewrite (after_decoding_city_key E d city _ Hk), Hm, Hfmt. reflexivity.
  - intros city path e Hc Hf Hp Hr.
    exact (get_historical_data_read_fails E city path e Hc Hf Hp Hr).
Qed.

(** The model of [demo_env] does not know Atlantis: its error is
    answered with code 500 and its text. *)
Lemma error_envelope_invariant_witness :
  model_predict_heatwave demo_env (PStr "Atlantis")
  = inl (mkExn ValueError "City not found")
  /\ fst (demo_post "{'city': 'Atlantis'}")
     = error_response "City not found" "Failed to process your request" 500.
Proof.
  split; [reflexivity|].
  destruct (error_envelope_invariant demo_env) as (_ & _ & Hpost & _ & Hmodel & _).
  apply (Hpost (mkRequest (dq "{'city': 'Atlantis'}") true)
           (mkExn ValueError "City not found")).
  apply (Hmodel _ [("city", PStr "Atlantis")] (PStr "Atlantis")).
  - discriminate.
  - reflexivity.
  - vm_compute. reflexivity.
  - reflexivity.
  - reflexivity.
Defined.

(** C3.  The code of an error answer does not always match the fault
    class.  A body that is not JSON and a body that is JSON but no object
    are faults of the client's input, for which the taxonomy gives 400;
    both are answered with the three-key envelope, but with code 500 and
    the text of the exception as the error, because the exception that
    [request.get_json()] or the membership test raises reaches the
    catch-all of lines 86-91. *)
Theorem client_fault_answered_500 :
  malformed_body demo_env (mkRequest (dq "{'city': ") true)
  /\ fault_of_post demo_env (mkRequest (dq "{'city': ") true) = Some ClientInputError
  /\ is_error_envelope (fst (demo_post "{'city': "))
  /\ status_code (fst (demo_post "{'city': ")) = 500
  /\ status_code (fst (demo_post "{'city': ")) <> http_status ClientInputError
  /\ raised (predict_heatwave_try demo_env (mkRequest (dq "{'city': ") true))
       (mkExn BadRequest (bad_request_text demo_env))
  /\ error_field (fst (demo_post "{'city': "))
     = Some (PStr (bad_request_text demo_env))
  /\ fault_of_post demo_env (mkRequest "5" true) = Some ClientInputError
  /\ is_error_envelope (fst (demo_post "5"))
  /\ status_code (fst (demo_post "5")) = 500.
Proof.
  split; [split; [discriminate | split; reflexivity]|].
  split; [reflexivity|].
  split; [apply error_response_envelope|].
  split; [reflexivity|].
  split; [discriminate|].
  split; [reflexivity|].
  split; [reflexivity|].
  split; [reflexivity|].
  split; [apply error_response_envelope | reflexivity].
Qed.

(** The answer 400 "Invalid JSON" is never given: the only error
    [request.get_json()] raises on a body that is not JSON is the
    framework's own, which the inner handler does not catch. *)
Lemma invalid_json_never_answered (E : Env) (r : Request) :
  error_field (fst (predict_heatwave E r)) = Some (PStr "Invalid JSON") ->
  status_code (fst (predict_heatwave E r)) = 500.
Proof.
  unfold predict_heatwave.
  destruct (except_Exception_cases "Failed to process your request"
              (predict_heatwave_try E r)) as [[resp [Hret ->]] | [e [He ->]]].
  - destruct (predict_heatwave_try_returns E r resp Hret)
      as [-> | [-> | [city [preds ->]]]]; intro H; discriminate H.
  - reflexivity.
Qed.

(* ================================================================= *)
(** ** POST /heatwave: which calls a request causes *)

Lemma get_json_trace (E : Env) (r : Request) :
  snd (get_json E r []) = [EvGetJson].
Proof.
  unfold get_json, bind, tell, ret, raise.
  destruct (is_json r); [destruct (json_loads E (data r)) | destruct (silent_mimetype E)];
    reflexivity.
Qed.

(** A decoded body that is not an object causes no further call. *)
Lemma after_decoding_non_object (E : Env) (v : pyval) (t1 : trace) :
  (forall d, v <> PDict d) ->
  snd (after_decoding E v t1) = t1.
Proof.
  intro Hv. unfold after_decoding, bind, lift, tell.
  destruct (negb (truthy v)); [reflexivity|].
  destruct v as [|b|z|f|s|l|d]; cbn [py_contains_city py_getitem_city raise ret];
    try reflexivity.
  - destruct (negb (contains "city" s)); reflexivity.
  - destruct (negb (existsb (eq_str "city") l)); reflexivity.
  - exfalso. exact (Hv d eq_refl).
Qed.

Lemma after_decoding_object (E : Env) (d : list (string * pyval)) (t1 : trace) :
  snd (after_decoding E (PDict d) t1) = t1
  \/ exists city, dict_get "city" d = Some city
                  /\ snd (after_decoding E (PDict d) t1)
                     = (t1 ++ [EvPredict city])%list.
Proof.
  destruct (dict_get "city" d) as [city|] eqn:Hk.
  - right. exists city. split; [reflexivity|].
    rewrite (after_decoding_city_key E d city t1 Hk).
    destruct (model_predict_heatwave E city) as [e|forecast]; [reflexivity|].
    destruct (fst (for_each (format_row E) forecast [])); reflexivity.
  - left. rewrite (after_decoding_no_city_key E d t1 Hk). reflexivity.
Qed.

(** X3.  A POST /heatwave request causes no call at all (empty body),
    or one call of the JSON reader, or one call of the JSON reader followed
    by one call of the model: the model is called at most once, never
    before the body is decoded, and the data file is never touched. *)
Theorem predict_heatwave_calls (E : Env) (r : Request) :
  (data r = "" /\ snd (predict_heatwave E r) = [])
  \/ (data r <> "" /\ snd (predict_heatwave E r) = [EvGetJson])
  \/ (data r <> ""
      /\ exists city, snd (predict_heatwave E r) = [EvGetJson; EvPredict city]).
Proof.
  destruct (String.eqb (data r) "") eqn:Hd.
  - left. apply String.eqb_eq in Hd. split; [exact Hd|].
    unfold predict_heatwave, except_Exception, predict_heatwave_try.
    rewrite Hd. reflexivity.
  - right. apply String.eqb_neq in Hd.
    pose proof (get_json_trace E r) as Ht.
    destruct (get_json E r []) as [[e|v] t1] eqn:Hg; cbn [snd] in Ht; subst t1.
    + left. split; [exact Hd|].
      rewrite (predict_heatwave_get_json_raises E r e _ Hd Hg). reflexivity.
    + assert (Hsnd : snd (predict_heatwave E r) = snd (after_decoding E v [EvGetJson])).
      { unfold predict_heatwave, except_Exception.
        rewrite (predict_heatwave_try_decoded E r v _ Hd Hg).
        destruct (after_decoding E v [EvGetJson]) as [[e|resp] t]; reflexivity. }
      rewrite Hsnd.
      destruct v as [|b|z|f|s|l|d];
        try (left; split; [exact Hd|];
             apply after_decoding_non_object; intros d' H; discriminate H).
      destruct (after_decoding_object E d [EvGetJson]) as [H | [city [_ H]]].
      * left. split; [exact Hd | exact H].
      * right. split; [exact Hd|]. exists city. exact H.
Qed.

(** X1.  The model is called only for a non-empty body that decodes to
    an object with a "city" key, and it is called with the value found
    under that key: arrays, strings, numbers, booleans and null never
    reach it. *)
Theorem model_called_only_with_city_key (E : Env) (r : Request) (city : pyval) :
  In (EvPredict city) (snd (predict_heatwave E r)) ->
  data r <> ""
  /\ exists d, fst (get_json E r []) = inr (PDict d)
               /\ dict_get "city" d = Some city.
Proof.
  intro Hin.
  destruct (String.eqb (data r) "") eqn:Hd.
  { apply String.eqb_eq in Hd. exfalso.
    unfold predict_heatwave, except_Exception, predict_heatwave_try in Hin.
    rewrite Hd in Hin. exact Hin. }
  apply String.eqb_neq in Hd. split; [exact Hd|].
  pose proof (get_json_trace E r) as Ht.
  destruct (get_json E r []) as [[e|v] t1] eqn:Hg; cbn [snd] in Ht; subst t1.
  { exfalso. rewrite (predict_heatwave_get_json_raises E r e _ Hd Hg) in Hin.
    cbn [snd In] in Hin. destruct Hin as [H|[]]. discriminate H. }
  assert (Hsnd : snd (predict_heatwave E r) = snd (after_decoding E v [EvGetJson])).
  { unfold predict_heatwave, except_Exception.
    rewrite (predict_heatwave_try_decoded E r v _ Hd Hg).
    destruct (after_decoding E v [EvGetJson]) as [[e|resp] t]; reflexivity. }
  rewrite Hsnd in Hin.
  destruct v as [|b|z|f|s|l|d];
    try (exfalso; rewrite after_decoding_non_object in Hin
           by (intros d' H; discriminate H);
         cbn [In] in Hin; destruct Hin as [H|[]]; discriminate H).
  exists d. split; [reflexivity|].
  destruct (after_decoding_object E d [EvGetJson]) as [H | [c [Hk H]]];
    rewrite H in Hin; cbn [app In] in Hin.
  - exfalso. destruct Hin as [H'|[]]. discriminate H'.
  - destruct Hin as [H'|[H'|[]]]; [discriminate H'|].
    injection H' as <-. exact Hk.
Qed.

Lemma model_called_only_with_city_key_witness :
  In (EvPredict (PStr "Phoenix")) (snd (demo_post "{'city': 'Phoenix'}"))
  /\ exists d, fst (get_json demo_env (mkRequest (dq "{'city': 'Phoenix'}") true) [])
               = inr (PDict d)
               /\ dict_get "city" d = Some (PStr "Phoenix").
Proof.
  assert (Hin : In (EvPredict (PStr "Phoenix")) (snd (demo_post "{'city': 'Phoenix'}"))).
  { vm_compute. right; left; reflexivity. }
  split; [exact Hin|].
  apply (model_called_only_with_city_key demo_env
           (mkRequest (dq "{'city': 'Phoenix'}") true) (PStr "Phoenix") Hin).
Defined.

(* ================================================================= *)
(** ** POST /heatwave: bodies that are not objects *)

Lemma predict_heatwave_after_decoding (E : Env) (r : Request) (v : pyval)
  (resp : Response) (t : trace) :
  data r <> "" -> is_json r = true -> json_loads E (data r) = Some v ->
  after_decoding E v [EvGetJson] = (inr resp, t) ->
  predict_heatwave E r = (resp, t).
Proof.
  intros Hne Hj Hl Ha. unfold predict_heatwave, except_Exception.
  rewrite (predict_heatwave_try_decoded E r v _ Hne (get_json_decoded E r v [] Hj Hl)).
  cbn [app]. rewrite Ha. reflexivity.
Qed.

Lemma predict_heatwave_after_decoding_raises (E : Env) (r : Request) (v : pyval)
  (e : exn) (t : trace) :
  data r <> "" -> is_json r = true -> json_loads E (data r) = Some v ->
  after_decoding E v [EvGetJson] = (inl e, t) ->
  predict_heatwave E r
  = (error_response (exn_str e) "Failed to process your request" 500, t).
Proof.
  intros Hne Hj Hl Ha. unfold predict_heatwave, except_Exception.
  rewrite (predict_heatwave_try_decoded E r v _ Hne (get_json_decoded E r v [] Hj Hl)).
  cbn [app]. rewrite Ha. reflexivity.
Qed.

(** X2.  A body that decodes to a truthy value other than an object
    never reaches the model.  An array without the element "city" and a
    string without the substring "city" are answered 400 "Missing
    parameter"; an array with that element, a string with that substring,
    and every number and [true] are answered 500 with the text of the
    TypeError that the membership test or, after it, the subscript raises
    on them. *)
Theorem non_object_body_answers (E : Env) (r : Request) (v : pyval) :
  data r <> "" -> is_json r = true -> json_loads E (data r) = Some v ->
  truthy v = true -> (forall d, v <> PDict d) ->
  snd (predict_heatwave E r) = [EvGetJson]
  /\ ((exists l, v = PList l /\ existsb (eq_str "city") l = false)
      \/ (exists s, v = PStr s /\ contains "city" s = false) ->
      fst (predict_heatwave E r) = missing_parameter_post)
  /\ ((exists l, v = PList l /\ existsb (eq_str "city") l = true)
      \/ (exists s, v = PStr s /\ contains "city" s = true)
      \/ (exists b, v = PBool b) \/ (exists z, v = PInt z)
      \/ (exists f, v = PFloat f) ->
      exists e, (py_contains_city v = inl e
                 \/ py_contains_city v = inr true /\ py_getitem_city v = inl e)
                /\ raised (predict_heatwave_try E r) e
                /\ exn_cls e = TypeError
                /\ fst (predict_heatwave E r)
                   = error_response (exn_str e)
                       "Failed to process your request" 500).
Proof.
  intros Hne Hj Hl Ht Hv.
  assert (Hraised : forall e,
             after_decoding E v [EvGetJson] = (inl e, [EvGetJson]) ->
             raised (predict_heatwave_try E r) e).
  { intros e Ha. unfold raised.
    rewrite (predict_heatwave_try_decoded E r v _ Hne (get_json_decoded E r v [] Hj Hl)).
    cbn [app]. rewrite Ha. reflexivity. }
  assert (Hrun : forall resp, after_decoding E v [EvGetJson] = (inr resp, [EvGetJson]) ->
                 predict_heatwave E r = (resp, [EvGetJson])).
  { intros resp. apply (predict_heatwave_after_decoding E r v resp _ Hne Hj Hl). }
  assert (Hexn : forall e, after_decoding E v [EvGetJson] = (inl e, [EvGetJson]) ->
                 predict_heatwave E r
                 = (error_response (exn_str e) "Failed to process your request" 500,
                    [EvGetJson])).
  { intros e. apply (predict_heatwave_after_decoding_raises E r v e _ Hne Hj Hl). }
  split; [|split].
  - pose proof (after_decoding_non_object E v [EvGetJson] Hv) as Hs.
    destruct (after_decoding E v [EvGetJson]) as [[e|resp] t] eqn:Ha;
      cbn [snd] in Hs; subst t.
    + rewrite (Hexn e eq_refl). reflexivity.
    + rewrite (Hrun resp eq_refl). reflexivity.
  - intros [[l [-> Hc]] | [s [-> Hc]]].
    + rewrite (Hrun missing_parameter_post); [reflexivity|].
      unfold after_decoding, bind, lift. rewrite Ht.
      cbn [negb py_contains_city ret]. rewrite Hc. reflexivity.
    + rewrite (Hrun missing_parameter_post); [reflexivity|].
      unfold after_decoding, bind, lift. rewrite Ht.
      cbn [negb py_contains_city ret]. rewrite Hc. reflexivity.
  - assert (Hfin : forall e,
               (py_contains_city v = inl e
                \/ py_contains_city v = inr true /\ py_getitem_city v = inl e) ->
               exn_cls e = TypeError ->
               after_decoding E v [EvGetJson] = (inl e, [EvGetJson]) ->
               exists e', (py_contains_city v = inl e'
                           \/ py_contains_city v = inr true
                              /\ py_getitem_city v = inl e')
                          /\ raised (predict_heatwave_try E r) e'
                          /\ exn_cls e' = TypeError
                          /\ fst (predict_heatwave E r)
                             = error_response (exn_str e')
                                 "Failed to process your request" 500).
    { intros e Hop Hcls Ha. exists e. split; [exact Hop|].
      split; [exact (Hraised e Ha)|]. split; [exact Hcls|].
      rewrite (Hexn e Ha). reflexivity. }
    intros [[l [-> Hc]] | [[s [-> Hc]] | [[b ->] | [[z ->] | [f ->]]]]].
    + apply (Hfin (mkExn TypeError "list indices must be integers or slices, not str")).
      * right. split; [cbn [py_contains_city]; rewrite Hc|]; reflexivity.
      * reflexivity.
      * unfold after_decoding, bind, lift. rewrite Ht.
        cbn [negb py_contains_city py_getitem_city ret raise]. rewrite Hc.
        reflexivity.
    + apply (Hfin (mkExn TypeError "string indices must be integers")).
      * right. split; [cbn [py_contains_city]; rewrite Hc|]; reflexivity.
      * reflexivity.
      * unfold after_decoding, bind, lift. rewrite Ht.
        cbn [negb py_contains_city py_getitem_city ret raise]. rewrite Hc.
        reflexivity.
    + apply (Hfin (mkExn TypeError "argument of type 'bool' is not iterable")).
      * left. reflexivity.
      * reflexivity.
      * unfold after_decoding, bind, lift. rewrite Ht. reflexivity.
    + apply (Hfin (mkExn TypeError "argument of type 'int' is not iterable")).
      * left. reflexivity.
      * reflexivity.
      * unfold after_decoding, bind, lift. rewrite Ht. reflexivity.
    + apply (Hfin (mkExn TypeError "argument of type 'float' is not iterable")).
      * left. reflexivity.
      * reflexivity.
      * unfold after_decoding, bind, lift. rewrite Ht. reflexivity.
Qed.

(** The array [["city"]] is answered 500, the array [["town"]] 400. *)
Lemma non_object_body_answers_witness :
  truthy (PList [PStr "city"]) = true
  /\ snd (demo_post "['city']") = [EvGetJson]
  /\ status_code (fst (demo_post "['city']")) = 500
  /\ fst (demo_post "['town']") = missing_parameter_post.
Proof.
  split; [reflexivity|].
  destruct (non_object_body_answers demo_env (mkRequest (dq "['city']") true)
              (PList [PStr "city"])) as (Ht & _ & Hbad).
  { discriminate. } { reflexivity. } { vm_compute; reflexivity. }
  { reflexivity. } { intros d H; discriminate H. }
  destruct (non_object_body_answers demo_env (mkRequest (dq "['town']") true)
              (PList [PStr "town"])) as (_ & Hgood & _).
  { discriminate. } { reflexivity. } { vm_compute; reflexivity. }
  { reflexivity. } { intros d H; discriminate H. }
  split; [exact Ht|]. split.
  - destruct Hbad as (e & _ & _ & _ & He).
    + left. exists [PStr "city"]. split; reflexivity.
    + unfold demo_post. rewrite He. reflexivity.
  - apply Hgood. left. exists [PStr "town"]. split; reflexivity.
Defined.

(** X6.  A request whose [request.data] is not empty and whose content
    type does not announce JSON is never decoded and never reaches the
    model: where the framework answers [None] to it the request is
    answered 400 "Missing parameter", where the framework raises its 415
    error the request is answered 500 with that error's text.  (A body
    sent under a form content type is not such a request: the framework
    leaves [request.data] empty for it.) *)
Theorem non_json_content_type (E : Env) (r : Request) :
  data r <> "" -> is_json r = false ->
  predict_heatwave E r
  = (if silent_mimetype E then missing_parameter_post
     else error_response (unsupported_media_text E)
            "Failed to process your request" 500,
     [EvGetJson]).
Proof.
  intros Hne Hj.
  destruct (silent_mimetype E) eqn:Hs.
  - apply (predict_heatwave_falsy E r PNone [EvGetJson] Hne); [|reflexivity].
    unfold get_json, bind, tell, ret. rewrite Hj, Hs. reflexivity.
  - apply (predict_heatwave_get_json_raises E r
             (mkExn UnsupportedMediaType (unsupported_media_text E)) [EvGetJson] Hne).
    unfold get_json, bind, tell, raise. rewrite Hj, Hs. reflexivity.
Qed.

Lemma non_json_content_type_witness :
  data (mkRequest (dq "{'city': 'Phoenix'}") false) <> ""
  /\ status_code
       (fst (predict_heatwave demo_env (mkRequest (dq "{'city': 'Phoenix'}") false)))
     = 500.
Proof.
  split; [discriminate|].
  rewrite (non_json_content_type demo_env (mkRequest (dq "{'city': 'Phoenix'}") false));
    [reflexivity | discriminate | reflexivity].
Defined.

(* ================================================================= *)
(** ** POST /heatwave: rows that cannot be converted *)

Lemma for_each_first_failure (E : Env) (good rest : list ForecastRow)
  (bad : ForecastRow) (e : exn) :
  Forall (fun row => row_formats E row = true) good ->
  fst (format_row E bad []) = inl e ->
  fst (for_each (format_row E) (good ++ bad :: rest)%list []) = inl e.
Proof.
  intros Hgood Hbad. induction Hgood as [|row good Hrow _ IH].
  - cbn [app for_each]. unfold bind.
    rewrite (format_row_trace E bad []), Hbad. reflexivity.
  - destruct (format_row_entry E row Hrow) as (dt & z & f & _ & _ & _ & Hrun & _).
    cbn [app for_each]. unfold bind.
    rewrite (format_row_trace E row []), Hrun.
    rewrite (for_each_format_row_trace E _ []), IH. reflexivity.
Qed.

(** X5.  The forecast is converted all or nothing: when a row cannot be
    converted, the request is answered 500 with the error of the first
    such row in row order, and none of the rows converted before it is
    returned. *)
Theorem first_failing_row_fails_request (E : Env) (r : Request)
  (d : list (string * pyval)) (city : pyval)
  (good rest : list ForecastRow) (bad : ForecastRow) (e : exn) :
  data r <> "" -> is_json r = true ->
  json_loads E (data r) = Some (PDict d) ->
  dict_get "city" d = Some city ->
  model_predict_heatwave E city = inr (good ++ bad :: rest)%list ->
  Forall (fun row => row_formats E row = true) good ->
  fst (format_row E bad []) = inl e ->
  predict_heatwave E r
  = (error_response (exn_str e) "Failed to process your request" 500,
     [EvGetJson; EvPredict city])
  /\ field "predictions" (fst (predict_heatwave E r)) = None.
Proof.
  intros Hne Hj Hl Hk Hm Hgood Hbad.
  assert (Hrun : predict_heatwave E r
                 = (error_response (exn_str e) "Failed to process your request" 500,
                    [EvGetJson; EvPredict city])).
  { rewrite (predict_heatwave_city_key E r d city [EvGetJson] Hne
               (get_json_decoded E r _ [] Hj Hl) Hk).
    rewrite Hm, (for_each_first_failure E good rest bad e Hgood Hbad). reflexivity. }
  rewrite Hrun. split; reflexivity.
Qed.

(** Three rows: the first converts, the second has a missing flag, the
    third has no flag at all; the answer carries the error of the second. *)
Lemma first_failing_row_fails_request_witness :
  fst (format_row (forecast_env forecast_with_missing_flag)
         (demo_row (DStr "2024-07-02") (PFloat FNaN) (PFloat (FFin (1 # 2)))) [])
  = inl (mkExn ValueError "cannot convert float NaN to integer")
  /\ fst (predict_heatwave (forecast_env forecast_with_missing_flag)
            (mkRequest (dq "{'city': 'Phoenix'}") true))
     = error_response "cannot convert float NaN to integer"
         "Failed to process your request" 500.
Proof.
  split; [vm_compute; reflexivity|].
  destruct (first_failing_row_fails_request
              (forecast_env forecast_with_missing_flag)
              (mkRequest (dq "{'city': 'Phoenix'}") true)
              [("city", PStr "Phoenix")] (PStr "Phoenix")
              [demo_row (DStr "2024-07-01") (PInt 1) (PFloat (FFin (9 # 10)))]
              [demo_row (DStr "2024-07-03") PNone (PFloat (FFin (1 # 2)))]
              (demo_row (DStr "2024-07-02") (PFloat FNaN) (PFloat (FFin (1 # 2))))
              (mkExn ValueError "cannot convert float NaN to integer"))
    as [Hrun _].
  - discriminate.
  - reflexivity.
  - vm_compute. reflexivity.
  - reflexivity.
  - reflexivity.
  - repeat constructor.
  - vm_compute. reflexivity.
  - rewrite Hrun. reflexivity.
Defined.

(* ================================================================= *)
(** ** POST /heatwave: what a 200 answer implies *)

Lemma formatted_date_in_range (E : Env) (d : date_value) (s : string) :
  formatted_date E d = inr s -> date_in_range d = true.
Proof.
  destruct d as [t|ns|c| |n| ]; try reflexivity.
  unfold formatted_date, to_date_obj, to_datetime_ns, date_in_range.
  destruct (Z.eqb_spec n iNaT) as [->|Hn]; [reflexivity|].
  destruct (Z.ltb_spec iNaT n) as [Hlo|Hlo]; cbn [andb].
  - destruct (Z.leb_spec n int64_max) as [Hhi|Hhi]; [|intro H; discriminate H].
    intros _. destruct (Z.leb_spec iNaT n); [reflexivity | lia].
  - intro H; discriminate H.
Qed.

Lemma format_row_success_formats (E : Env) (row : ForecastRow) (p : pyval) :
  fst (format_row E row []) = inr p -> row_formats E row = true.
Proof.
  unfold format_row, bind, lift, row_formats.
  destruct (formatted_date E (time row)) as [e|dt] eqn:Hd;
    cbn [raise ret fst]; [intro H; discriminate H|].
  rewrite (formatted_date_in_range E _ dt Hd).
  destruct (py_int E (is_heatwave row)) as [e|z];
    cbn [raise ret fst]; [intro H; discriminate H|].
  destruct (py_float E (heatwave_probability row)) as [e|f];
    cbn [raise ret fst]; [intro H; discriminate H|].
  reflexivity.
Qed.

Lemma for_each_format_row_inversion (E : Env) (rows : list ForecastRow)
  (preds : list pyval) :
  fst (for_each (format_row E) rows []) = inr preds ->
  Forall (fun row => row_formats E row = true) rows
  /\ preds = map (entry_of E) rows.
Proof.
  revert preds. induction rows as [|row rows IH]; intros preds.
  - cbn [for_each]. intro H. injection H as <-. split; [constructor | reflexivity].
  - cbn [for_each]. unfold bind.
    rewrite (format_row_trace E row []).
    destruct (fst (format_row E row [])) as [e|p] eqn:Hp;
      [intro H; discriminate H|].
    rewrite (for_each_format_row_trace E rows []).
    destruct (fst (for_each (format_row E) rows [])) as [e|ps] eqn:Hps;
      [intro H; discriminate H|].
    intro H. injection H as <-.
    destruct (IH ps eq_refl) as [Hall ->].
    split.
    + constructor; [exact (format_row_success_formats E row p Hp) | exact Hall].
    + assert (Hent : entry_of E row = p)
        by (unfold entry_of; rewrite Hp; reflexivity).
      cbn [map]. rewrite Hent. reflexivity.
Qed.

Lemma after_decoding_non_object_result (E : Env) (v : pyval) (t1 : trace) :
  (forall d, v <> PDict d) ->
  fst (after_decoding E v t1) = inr missing_parameter_post
  \/ exists e, fst (after_decoding E v t1) = inl e.
Proof.
  intro Hv. unfold after_decoding, bind, lift, tell.
  destruct (negb (truthy v)); [left; reflexivity|].
  destruct v as [|b|z|f|s|l|d]; cbn [py_contains_city py_getitem_city raise ret];
    try (right; eexists; reflexivity).
  - destruct (negb (contains "city" s)); [left | right; eexists]; reflexivity.
  - destruct (negb (existsb (eq_str "city") l)); [left | right; eexists]; reflexivity.
  - exfalso. exact (Hv d eq_refl).
Qed.

(** The only way to a 200 answer of POST /heatwave. *)
Lemma predict_heatwave_200 (E : Env) (r : Request) :
  status_code (fst (predict_heatwave E r)) = 200 ->
  data r <> ""
  /\ exists d city rows,
       fst (get_json E r []) = inr (PDict d)
       /\ dict_get "city" d = Some city
       /\ model_predict_heatwave E city = inr rows
       /\ Forall (fun row => row_formats E row = true) rows
       /\ predict_heatwave E r
          = (success_response city (map (entry_of E) rows),
             [EvGetJson; EvPredict city]).
Proof.
  destruct (String.eqb (data r) "") eqn:Hd.
  { apply String.eqb_eq in Hd.
    unfold predict_heatwave, except_Exception, predict_heatwave_try.
    rewrite Hd. intro H; discriminate H. }
  apply String.eqb_neq in Hd. intro H200. split; [exact Hd|].
  pose proof (get_json_trace E r) as Ht.
  destruct (get_json E r []) as [[e|v] t1] eqn:Hg; cbn [snd] in Ht; subst t1.
  { rewrite (predict_heatwave_get_json_raises E r e _ Hd Hg) in H200.
    discriminate H200. }
  assert (Hnd : (forall d, v <> PDict d) -> False).
  { intro Hv. revert H200. unfold predict_heatwave, except_Exception.
    rewrite (predict_heatwave_try_decoded E r v _ Hd Hg).
    destruct (after_decoding_non_object_result E v [EvGetJson] Hv) as [Ha | [e Ha]];
      destruct (after_decoding E v [EvGetJson]) as [[e'|resp] t];
      cbn [fst] in Ha; try discriminate Ha.
    - injection Ha as ->. intro H; discriminate H.
    - intro H; discriminate H. }
  destruct v as [|b|z|f|s|l|d];
    try (exfalso; apply Hnd; intros d' H; discriminate H).
  exists d.
  destruct (dict_get "city" d) as [city|] eqn:Hk.
  2:{ rewrite (predict_heatwave_no_city_key E r d _ Hd Hg Hk) in H200.
      discriminate H200. }
  exists city.
  pose proof (predict_heatwave_city_key E r d city _ Hd Hg Hk) as Hrun.
  destruct (model_predict_heatwave E city) as [e|rows] eqn:Hm.
  { rewrite Hrun in H200. discriminate H200. }
  exists rows.
  destruct (fst (for_each (format_row E) rows [])) as [e|preds] eqn:Hf.
  { rewrite Hrun in H200. discriminate H200. }
  destruct (for_each_format_row_inversion E rows preds Hf) as [Hall ->].
  repeat split; try assumption; reflexivity.
Qed.

(* ================================================================= *)
(** ** POST /heatwave: what a 200 answer holds *)

Lemma quot_truncation (q : Q) :
  truncation_of q (Z.quot (Qnum q) (Zpos (Qden q))).
Proof.
  destruct q as [n d]. unfold truncation_of, Qle, Qlt, inject_Z.
  cbn [Qnum Qden]. rewrite !Z.mul_1_r, ?Z.mul_0_l.
  pose proof (Pos2Z.is_pos d) as Hd.
  split; intro Hs; Z.quot_rem_to_equations; split; nia.
Qed.

Lemma py_int_coerced (E : Env) (cell : pyval) (z : Z) :
  py_int E cell = inr z -> flag_coerced E cell z.
Proof.
  destruct cell as [|b|z0|[|q]|s|l|d]; cbn [py_int flag_coerced];
    intro H; try discriminate H.
  - destruct b; injection H as <-; reflexivity.
  - injection H as <-. reflexivity.
  - injection H as <-. apply quot_truncation.
  - destruct (int_of_str E s); [|discriminate H]. injection H as <-. reflexivity.
Qed.

Lemma py_float_coerced (E : Env) (cell : pyval) (f : pyfloat) :
  py_float E cell = inr f -> probability_coerced E cell f.
Proof.
  destruct cell as [|b|z0|f0|s|l|d]; cbn [py_float probability_coerced];
    intro H; try discriminate H.
  - destruct b; injection H as <-; reflexivity.
  - intros _. destruct (Z.abs z0 <? float_overflow); [|discriminate H].
    injection H as <-. reflexivity.
  - injection H as <-. reflexivity.
  - destruct (float_of_str E s); [|discriminate H]. injection H as <-. reflexivity.
Qed.

(** C5, as stated, fails: the handler converts the flag with [int] and
    the probability with [float] and does not clamp, so a row the model
    returns with the flag 7 and the probability 1.5 is answered 200 with
    [is_heatwave] 7 and [heatwave_probability] 1.5. *)
Lemma unclamped_row_passes_through :
  status_code (fst (predict_heatwave (forecast_env unclamped_forecast)
                      phoenix_request)) = 200
  /\ exists entry,
       field "predictions" (fst (predict_heatwave (forecast_env unclamped_forecast)
                                   phoenix_request)) = Some (PList [entry])
       /\ entry_field "is_heatwave" entry = Some (PInt 7)
       /\ entry_field "heatwave_probability" entry = Some (PFloat (FFin (3 # 2)))
       /\ ~ (7 = 0 \/ 7 = 1)
       /\ ~ (3 # 2 <= inject_Z 1)%Q.
Proof.
  split; [vm_compute; reflexivity|].
  eexists. split; [vm_compute; reflexivity|].
  split; [vm_compute; reflexivity|].
  split; [vm_compute; reflexivity|].
  split; [lia|]. unfold Qle. cbn. lia.
Qed.

(** C5, amended.  For a request with a valid body for which the model
    returns N rows, the answer is 200 exactly when every row converts; it
    then is the object with the keys city, predictions, message and
    status, status "success" and the city of the body; [predictions] has N
    entries, in row order; each entry has the twelve keys of a prediction,
    [is_heatwave] is the integer the row's flag denotes -- 0 or 1 when the
    flag is a boolean or the integer 0 or 1 --, [heatwave_probability] is
    the float the row's probability denotes -- between 0.0 and 1.0 when
    the probability is such a float --, and the other nine fields are those
    of the row. *)
Theorem forecast_response_shape (E : Env) (r : Request)
  (d : list (string * pyval)) (city : pyval) (rows : list ForecastRow) :
  data r <> "" -> is_json r = true ->
  json_loads E (data r) = Some (PDict d) ->
  dict_get "city" d = Some city ->
  model_predict_heatwave E city = inr rows ->
  (status_code (fst (predict_heatwave E r)) = 200
   <-> Forall (fun row => row_formats E row = true) rows)
  /\ (status_code (fst (predict_heatwave E r)) = 200 ->
      exists preds,
        same_keys (keys_of (fst (predict_heatwave E r))) forecast_keys = true
        /\ field "city" (fst (predict_heatwave E r)) = Some city
        /\ field "predictions" (fst (predict_heatwave E r)) = Some (PList preds)
        /\ field "message" (fst (predict_heatwave E r))
           = Some (PStr "Forecast generated successfully")
        /\ field "status" (fst (predict_heatwave E r)) = Some (PStr "success")
        /\ List.length preds = List.length rows
        /\ forall (i : nat) (row : ForecastRow),
             nth_error rows i = Some row ->
             exists entry z f,
               nth_error preds i = Some entry
               /\ same_keys (entry_keys entry) prediction_keys = true
               /\ entry_field "is_heatwave" entry = Some (PInt z)
               /\ flag_coerced E (is_heatwave row) z
               /\ (is_flag (is_heatwave row) = true -> z = 0 \/ z = 1)
               /\ entry_field "heatwave_probability" entry = Some (PFloat f)
               /\ probability_coerced E (heatwave_probability row) f
               /\ (is_probability (heatwave_probability row) = true ->
                   exists q, f = FFin q
                             /\ (inject_Z 0 <= q)%Q /\ (q <= inject_Z 1)%Q)
               /\ entry_field "temperature_2m_max" entry
                  = Some (temperature_2m_max row)
               /\ entry_field "apparent_temperature_max" entry
                  = Some (apparent_temperature_max row)
               /\ entry_field "relative_humidity_2m_mean" entry
                  = Some (relative_humidity_2m_mean row)
               /\ entry_field "wind_speed_10m_max" entry
                  = Some (wind_speed_10m_max row)
               /\ entry_field "cloud_cover_mean" entry = Some (cloud_cover_mean row)
               /\ entry_field "precipitation_sum" entry
                  = Some (precipitation_sum row)
               /\ entry_field "alert_level" entry = Some (alert_level row)
               /\ entry_field "alert_color" entry = Some (alert_color row)
               /\ entry_field "recommended_action" entry
                  = Some (recommended_action row)).
Proof.
  intros Hne Hj Hl Hk Hm.
  pose proof (get_json_decoded E r _ [] Hj Hl) as Hg.
  assert (Hinv : status_code (fst (predict_heatwave E r)) = 200 ->
                 Forall (fun row => row_formats E row = true) rows).
  { intro H200.
    destruct (predict_heatwave_200 E r H200)
      as (_ & d' & city' & rows' & Hg' & Hk' & Hm' & Hall & _).
    rewrite Hg in Hg'. cbn [fst] in Hg'. injection Hg' as <-.
    rewrite Hk in Hk'. injection Hk' as <-.
    rewrite Hm in Hm'. injection Hm' as <-. exact Hall. }
  split.
  - split; [exact Hinv|]. intro Hall.
    rewrite (predict_heatwave_success E r d city rows Hne Hj Hl Hk Hm Hall).
    reflexivity.
  - intro H200. pose proof (Hinv H200) as Hall.
    exists (map (entry_of E) rows).
    rewrite (predict_heatwave_success E r d city rows Hne Hj Hl Hk Hm Hall).
    split; [reflexivity|]. split; [reflexivity|]. split; [reflexivity|].
    split; [reflexivity|]. split; [reflexivity|].
    split; [apply length_map|].
    intros i row Hi. rewrite Forall_forall in Hall.
    destruct (format_row_entry E row (Hall row (nth_error_In _ _ Hi)))
      as (dt & z & f & _ & Hz & Hf & _ & Hentry).
    exists (entry_of E row), z, f.
    split; [now apply map_nth_error|].
    rewrite Hentry.
    split; [reflexivity|]. split; [reflexivity|].
    split; [exact (py_int_coerced E _ z Hz)|].
    split.
    { intro Hflag. destruct (is_flag_int E _ Hflag) as (z' & Hz' & Hz01).
      rewrite Hz in Hz'. injection Hz' as <-. exact Hz01. }
    split; [reflexivity|].
    split; [exact (py_float_coerced E _ f Hf)|].
    split.
    { intro Hprob.
      destruct (is_probability_float E _ Hprob) as (q & Hq & Hq0 & Hq1).
      rewrite Hf in Hq. injection Hq as ->. exists q. split; [reflexivity|].
      split; assumption. }
    repeat (split; [reflexivity|]). reflexivity.
Qed.

(** The request for Phoenix on the demonstration forecast: four rows,
    four entries. *)
Lemma forecast_response_shape_witness :
  status_code (fst (demo_post "{'city': 'Phoenix'}")) = 200
  /\ exists preds,
       field "predictions" (fst (demo_post "{'city': 'Phoenix'}"))
       = Some (PList preds)
       /\ List.length preds = 4%nat.
Proof.
  assert (H200 : status_code (fst (demo_post "{'city': 'Phoenix'}")) = 200)
    by (vm_compute; reflexivity).
  split; [exact H200|].
  destruct (forecast_response_shape demo_env
              (mkRequest (dq "{'city': 'Phoenix'}") true)
              [("city", PStr "Phoenix")] (PStr "Phoenix") demo_forecast)
    as (_ & Hshape).
  - discriminate.
  - reflexivity.
  - vm_compute. reflexivity.
  - reflexivity.
  - reflexivity.
  - destruct (Hshape H200) as (preds & _ & _ & Hp & _ & _ & Hlen & _).
    exists preds. split; [exact Hp | exact Hlen].
Defined.

(** X9.  A 200 answer of POST /heatwave is given only when the body was
    not empty, decoded to an object with a "city" key, the model answered
    the city found there with rows, and every row was converted; the
    answer then holds exactly the entries of those rows, in row order. *)
Theorem forecast_success_inversion (E : Env) (r : Request) :
  status_code (fst (predict_heatwave E r)) = 200 ->
  data r <> ""
  /\ exists d city rows,
       fst (get_json E r []) = inr (PDict d)
       /\ dict_get "city" d = Some city
       /\ model_predict_heatwave E city = inr rows
       /\ Forall (fun row => row_formats E row = true) rows
       /\ field "city" (fst (predict_heatwave E r)) = Some city
       /\ field "predictions" (fst (predict_heatwave E r))
          = Some (PList (map (entry_of E) rows))
       /\ snd (predict_heatwave E r) = [EvGetJson; EvPredict city].
Proof.
  intro H200. destruct (predict_heatwave_200 E r H200)
    as (Hne & d & city & rows & Hg & Hk & Hm & Hall & Hrun).
  split; [exact Hne|]. exists d, city, rows.
  rewrite Hrun. repeat split; assumption.
Qed.

Lemma forecast_success_inversion_witness :
  status_code (fst (demo_post "{'city': 'Phoenix'}")) = 200
  /\ snd (demo_post "{'city': 'Phoenix'}") = [EvGetJson; EvPredict (PStr "Phoenix")].
Proof.
  assert (H200 : status_code (fst (demo_post "{'city': 'Phoenix'}")) = 200)
    by (vm_compute; reflexivity).
  split; [exact H200|].
  destruct (forecast_success_inversion demo_env
              (mkRequest (dq "{'city': 'Phoenix'}") true) H200)
    as (_ & d & city & rows & Hg & Hk & _ & _ & _ & _ & Ht).
  unfold demo_post. rewrite Ht.
  assert (Hd : d = [("city", PStr "Phoenix")]).
  { vm_compute in Hg. injection Hg as <-. reflexivity. }
  subst d. vm_compute in Hk. injection Hk as <-. reflexivity.
Defined.

Lemma typed_prediction_entry (E : Env) (row : ForecastRow) :
  row_formats E row = true -> typed_prediction (entry_of E row) = true.
Proof.
  intro H. destruct (format_row_entry E row H) as (dt & z & f & _ & _ & _ & _ & ->).
  reflexivity.
Qed.

(** X10.  In every 200 answer of POST /heatwave the object has exactly
    the keys city, predictions, message and status, and each entry of
    [predictions] has exactly the twelve keys of lines 64-77 -- as sets:
    the order in which the keys are written is the serialiser's --, with a
    string under [date], an integer under [is_heatwave] and a float under
    [heatwave_probability], whatever types the model used for these
    cells. *)
Theorem predictions_are_typed (E : Env) (r : Request) :
  status_code (fst (predict_heatwave E r)) = 200 ->
  same_keys (keys_of (fst (predict_heatwave E r))) forecast_keys = true
  /\ field "status" (fst (predict_heatwave E r)) = Some (PStr "success")
  /\ exists preds,
       field "predictions" (fst (predict_heatwave E r)) = Some (PList preds)
       /\ forallb typed_prediction preds = true.
Proof.
  intro H200. destruct (predict_heatwave_200 E r H200)
    as (_ & d & city & rows & _ & _ & _ & Hall & Hrun).
  rewrite Hrun. split; [reflexivity | split; [reflexivity|]].
  exists (map (entry_of E) rows). split; [reflexivity|].
  apply forallb_forall. intros p Hp. apply in_map_iff in Hp.
  destruct Hp as [row [<- Hrow]]. rewrite Forall_forall in Hall.
  apply typed_prediction_entry, Hall, Hrow.
Qed.

(** A model that gives the flag as a boolean and the probability as an
    integer: the answer carries an integer and a float. *)
Lemma predictions_are_typed_witness :
  status_code
    (fst (predict_heatwave
            (forecast_env [demo_row (DDatetime (mkCivil 2024 7 1)) (PBool true) (PInt 1)])
            (mkRequest (dq "{'city': 'Phoenix'}") true))) = 200
  /\ exists preds,
       field "predictions"
         (fst (predict_heatwave
                 (forecast_env [demo_row (DDatetime (mkCivil 2024 7 1)) (PBool true) (PInt 1)])
                 (mkRequest (dq "{'city': 'Phoenix'}") true)))
       = Some (PList preds)
       /\ forallb typed_prediction preds = true.
Proof.
  assert (H200 : status_code
    (fst (predict_heatwave
            (forecast_env [demo_row (DDatetime (mkCivil 2024 7 1)) (PBool true) (PInt 1)])
            (mkRequest (dq "{'city': 'Phoenix'}") true))) = 200)
    by (vm_compute; reflexivity).
  split; [exact H200|].
  apply (predictions_are_typed _ _ H200).
Defined.

(* ================================================================= *)
(** ** GET /api/historical: which calls a request causes *)

(** X4.  A GET /api/historical request never calls the model's
    predictor or the JSON reader.  It causes no call at all, or one test
    of the existence of the model's data file, or that test followed by
    one reading of the same file; the file is read only after the test
    answered that it exists. *)
Theorem get_historical_data_calls (E : Env) (arg : option string) :
  snd (get_historical_data E arg) = []
  \/ (exists path, model_data_file E = Some path /\ path_exists E path = false
                   /\ snd (get_historical_data E arg) = [EvPathExists path])
  \/ (exists path, model_data_file E = Some path /\ path_exists E path = true
                   /\ snd (get_historical_data E arg)
                      = [EvPathExists path; EvReadCsv path]).
Proof.
  unfold get_historical_data, except_Exception, get_historical_data_try.
  destruct arg as [city|]; [|left; reflexivity].
  destruct (String.eqb city ""); [left; reflexivity|].
  destruct (model_data_file E) as [path|]; [|left; reflexivity].
  unfold bind, tell, lift.
  destruct (path_exists E path) eqn:Hp; cbn [negb ret].
  - right; right. exists path. split; [reflexivity | split; [exact Hp|]].
    destruct (read_csv E path) as [e|rows]; cbn [raise ret]; [reflexivity|].
    destruct (rows_of_city city rows); reflexivity.
  - right; left. exists path. split; [reflexivity | split; [exact Hp | reflexivity]].
Qed.

(* ================================================================= *)
(** ** GET /api/historical: what a 200 answer holds *)

(** The only way to a 200 answer of GET /api/historical. *)
Lemma get_historical_data_200 (E : Env) (arg : option string) :
  status_code (fst (get_historical_data E arg)) = 200 ->
  exists city path rows,
    arg = Some city /\ city <> ""
    /\ model_data_file E = Some path /\ path_exists E path = true
    /\ read_csv E path = inr rows
    /\ rows_of_city city rows <> []
    /\ fst (get_historical_data E arg)
       = historical_response city (formatted_data (rows_of_city city rows)).
Proof.
  destruct arg as [city|]; [|intro H; discriminate H].
  destruct (String.eqb city "") eqn:Hc.
  { apply String.eqb_eq in Hc. subst city. intro H; discriminate H. }
  apply String.eqb_neq in Hc.
  destruct (model_data_file E) as [path|] eqn:Hf.
  2:{ rewrite (get_historical_data_no_file E city Hc) by (left; exact Hf).
      intro H; discriminate H. }
  destruct (path_exists E path) eqn:Hp.
  2:{ rewrite (get_historical_data_no_file E city Hc)
        by (right; exists path; split; assumption).
      intro H; discriminate H. }
  destruct (read_csv E path) as [e|rows] eqn:Hr.
  { unfold get_historical_data, except_Exception.
    pose proof (get_historical_data_read_fails E city path e Hc Hf Hp Hr) as Hx.
    destruct (get_historical_data_try E (Some city) []) as [[e'|resp] t];
      cbn [fst] in Hx; [|discriminate Hx].
    intro H; discriminate H. }
  rewrite (get_historical_data_read E city path rows Hc Hf Hp Hr).
  destruct (rows_of_city city rows) as [|row rest] eqn:Hrows;
    [intro H; discriminate H|].
  intros _. exists city, path, rows.
  rewrite Hrows. repeat split; try assumption. discriminate.
Qed.

Lemma typed_summary_entry (city_data : list HistoricalRecord) (y : Z) :
  typed_summary (year_summary city_data y) = true.
Proof. reflexivity. Qed.

(** X11.  In every 200 answer of GET /api/historical the object has
    exactly the keys city, historical_data and status, and each entry of
    [historical_data] has exactly the seven keys of lines 128-136 -- as
    sets: the order in which the keys are written is the serialiser's --,
    with integers under [year] and [heatwave_days] and floats under the
    other five -- also for years whose cells are partly or all missing. *)
Theorem summaries_are_typed (E : Env) (arg : option string) :
  status_code (fst (get_historical_data E arg)) = 200 ->
  same_keys (keys_of (fst (get_historical_data E arg)))
    ["city"; "historical_data"; "status"] = true
  /\ field "status" (fst (get_historical_data E arg)) = Some (PStr "success")
  /\ field "city" (fst (get_historical_data E arg))
     = option_map PStr arg
  /\ forallb typed_summary (historical_entries (fst (get_historical_data E arg)))
     = true.
Proof.
  intro H200.
  destruct (get_historical_data_200 E arg H200)
    as (city & path & rows & -> & _ & _ & _ & _ & _ & Hrun).
  rewrite Hrun. split; [reflexivity | split; [reflexivity | split; [reflexivity|]]].
  change (historical_entries
            (historical_response city (formatted_data (rows_of_city city rows))))
    with (formatted_data (rows_of_city city rows)).
  apply forallb_forall. intros p Hp. unfold formatted_data in Hp.
  apply in_map_iff in Hp. destruct Hp as [y [<- _]]. apply typed_summary_entry.
Qed.

Lemma summaries_are_typed_witness :
  status_code (fst (demo_get "X")) = 200
  /\ forallb typed_summary (historical_entries (fst (demo_get "X"))) = true.
Proof.
  assert (H200 : status_code (fst (demo_get "X")) = 200) by reflexivity.
  split; [exact H200|].
  apply (summaries_are_typed demo_env (Some "X") H200).
Defined.

(* ================================================================= *)
(** ** GET /api/historical: the year groups partition the records *)

Lemma unique_from_length (l seen : list Z) :
  (List.length (unique_from seen l) <= List.length l)%nat.
Proof.
  revert seen. induction l as [|a l IH]; intro seen; cbn [unique_from List.length].
  - apply Nat.le_refl.
  - destruct (existsb (Z.eqb a) seen); cbn [List.length].
    + apply Nat.le_trans with (List.length l); [apply IH | apply Nat.le_succ_diag_r].
    + apply le_n_S, IH.
Qed.

Lemma unique_nonempty (l : list Z) : l <> [] -> unique l <> [].
Proof. destruct l as [|a l]; [congruence | discriminate]. Qed.

(** X8.  A 200 answer of GET /api/historical holds at least one entry,
    one entry for each distinct year of the city's records, and so never
    more entries than the city has records. *)
Theorem historical_entry_count (E : Env) (arg : option string) :
  status_code (fst (get_historical_data E arg)) = 200 ->
  exists city path rows,
    arg = Some city /\ model_data_file E = Some path
    /\ read_csv E path = inr rows
    /\ List.length (historical_entries (fst (get_historical_data E arg)))
       = List.length (unique (map h_year (rows_of_city city rows)))
    /\ (1 <= List.length (historical_entries (fst (get_historical_data E arg))))%nat
    /\ (List.length (historical_entries (fst (get_historical_data E arg)))
        <= List.length (rows_of_city city rows))%nat.
Proof.
  intro H200.
  destruct (get_historical_data_200 E arg H200)
    as (city & path & rows & -> & _ & Hf & _ & Hr & Hne & Hrun).
  exists city, path, rows. rewrite Hrun.
  change (historical_entries
            (historical_response city (formatted_data (rows_of_city city rows))))
    with (formatted_data (rows_of_city city rows)).
  unfold formatted_data. rewrite length_map.
  split; [reflexivity | split; [exact Hf | split; [exact Hr | split; [reflexivity|]]]].
  split.
  - assert (Hu : unique (map h_year (rows_of_city city rows)) <> []).
    { apply unique_nonempty. destruct (rows_of_city city rows); [congruence | discriminate]. }
    destruct (unique (map h_year (rows_of_city city rows)));
      [congruence | cbn [List.length]; apply le_n_S, Nat.le_0_l].
  - eapply Nat.le_trans; [apply unique_from_length|]. rewrite length_map.
    apply Nat.le_refl.
Qed.

Lemma historical_entry_count_witness :
  status_code (fst (demo_get "X")) = 200
  /\ List.length (historical_entries (fst (demo_get "X"))) = 2%nat
  /\ List.length (rows_of_city "X" demo_dataset) = 5%nat.
Proof.
  assert (H200 : status_code (fst (demo_get "X")) = 200) by reflexivity.
  split; [exact H200|].
  destruct (historical_entry_count demo_env (Some "X") H200)
    as (city & path & rows & Hc & _ & Hr & Hlen & _).
  injection Hc as <-. injection Hr as <-.
  split; [unfold demo_get; rewrite Hlen; reflexivity | reflexivity].
Defined.

Lemma Ztotal_zero (ys : list Z) : Ztotal (map (fun _ : Z => 0) ys) = 0.
Proof.
  unfold Ztotal. induction ys as [|y ys IH]; [reflexivity|].
  cbn [map fold_right]. rewrite IH. reflexivity.
Qed.

Lemma Ztotal_plus (a b : Z -> Z) (ys : list Z) :
  Ztotal (map (fun y => a y + b y) ys) = Ztotal (map a ys) + Ztotal (map b ys).
Proof.
  unfold Ztotal. induction ys as [|y ys IH]; [reflexivity|].
  cbn [map fold_right]. rewrite IH. ring.
Qed.

Lemma indicator_absent (x c : Z) (ys : list Z) :
  ~ In x ys -> Ztotal (map (fun y => if x =? y then c else 0) ys) = 0.
Proof.
  unfold Ztotal. induction ys as [|y ys IH]; intro Hn; [reflexivity|].
  cbn [map fold_right]. cbn [In] in Hn.
  destruct (Z.eqb_spec x y) as [->|_]; [tauto|].
  rewrite IH by tauto. reflexivity.
Qed.

Lemma indicator_present (x c : Z) (ys : list Z) :
  NoDup ys -> In x ys ->
  Ztotal (map (fun y => if x =? y then c else 0) ys) = c.
Proof.
  induction 1 as [|y ys Hy Hnd IH]; intro Hin; [destruct Hin|].
  change (Ztotal (map (fun y0 => if x =? y0 then c else 0) (y :: ys)))
    with ((if x =? y then c else 0)
          + Ztotal (map (fun y0 => if x =? y0 then c else 0) ys)).
  destruct (Z.eqb_spec x y) as [->|Hne].
  - rewrite (indicator_absent y c ys Hy). ring.
  - destruct Hin as [->|Hin]; [congruence|]. rewrite (IH Hin). ring.
Qed.

(** Adding a column up year by year, over distinct years that cover the
    records, is adding the column up. *)
Lemma Ztotal_by_year (g : HistoricalRecord -> Z) (ys : list Z)
  (l : list HistoricalRecord) :
  NoDup ys -> (forall r, In r l -> In (h_year r) ys) ->
  Ztotal (map (fun y => Ztotal (map g (rows_of_year y l))) ys)
  = Ztotal (map g l).
Proof.
  intros Hnd. induction l as [|r l IH]; intro Hcov.
  - change (Ztotal (map (fun _ : Z => 0) ys) = 0). apply Ztotal_zero.
  - rewrite (map_ext _
               (fun y => (if h_year r =? y then g r else 0)
                         + Ztotal (map g (rows_of_year y l)))).
    + rewrite Ztotal_plus, IH by (intros r' Hr'; apply Hcov; now right).
      rewrite (indicator_present (h_year r) (g r) ys Hnd)
        by (apply Hcov; now left).
      reflexivity.
    + intro y. unfold rows_of_year. cbn [filter].
      destruct (h_year r =? y); [reflexivity|].
      unfold Ztotal. lia.
Qed.

Lemma binary_flags_of_year (y : Z) (l : list HistoricalRecord) :
  Forall (fun r => binary_flag r = true) l ->
  Forall (fun r => binary_flag r = true) (rows_of_year y l).
Proof.
  rewrite !Forall_forall. intros H r Hr. apply H.
  unfold rows_of_year in Hr. apply filter_In in Hr. apply Hr.
Qed.

(** X7.  The year groups partition the city's records: when the
    heatwave flags of the city's records are 0 or 1 (and the records are
    fewer than a 64-bit integer counts), the [heatwave_days] of the
    entries of a 200 answer of GET /api/historical add up to the number of
    flagged records of the city; no record is counted twice or dropped. *)
Theorem year_groups_partition (E : Env) (arg : option string) :
  status_code (fst (get_historical_data E arg)) = 200 ->
  exists city path rows,
    arg = Some city /\ model_data_file E = Some path
    /\ read_csv E path = inr rows
    /\ (Forall (fun r => binary_flag r = true) (rows_of_city city rows) ->
        Z.of_nat (List.length (rows_of_city city rows)) <= int64_max ->
        Ztotal (map entry_heatwave_days
                  (historical_entries (fst (get_historical_data E arg))))
        = Z.of_nat (heatwave_day_count (rows_of_city city rows))).
Proof.
  intro H200.
  destruct (get_historical_data_200 E arg H200)
    as (city & path & rows & -> & _ & Hf & _ & Hr & _ & Hrun).
  exists city, path, rows. rewrite Hrun.
  change (historical_entries
            (historical_response city (formatted_data (rows_of_city city rows))))
    with (formatted_data (rows_of_city city rows)).
  split; [reflexivity | split; [exact Hf | split; [exact Hr|]]].
  intros Hflags Hlen. set (cd := rows_of_city city rows) in *.
  unfold formatted_data. rewrite map_map.
  rewrite (map_ext _ (fun y => Ztotal (map h_is_heatwave (rows_of_year y cd)))).
  - rewrite (Ztotal_by_year h_is_heatwave (unique (map h_year cd)) cd
               (unique_from_NoDup _ _)).
    + apply Ztotal_counts. exact Hflags.
    + intros r Hin. apply unique_In. now apply in_map.
  - intro y.
    change (entry_heatwave_days (year_summary cd y))
      with (int_series_sum (map h_is_heatwave (rows_of_year y cd))).
    pose proof (binary_flags_of_year y cd Hflags) as Hy.
    rewrite (flag_sum_counts _ Hy).
    + symmetry. apply Ztotal_counts. exact Hy.
    + pose proof (filter_length_le (fun r => h_year r =? y) cd) as Hle.
      unfold rows_of_year. lia.
Qed.

(** City X: flags 1, 0, 1, 0, 0 over two years add up to 2. *)
Lemma year_groups_partition_witness :
  status_code (fst (demo_get "X")) = 200
  /\ map entry_heatwave_days (historical_entries (fst (demo_get "X"))) = [1; 1]
  /\ Ztotal (map entry_heatwave_days (historical_entries (fst (demo_get "X"))))
     = Z.of_nat (heatwave_day_count (rows_of_city "X" demo_dataset)).
Proof.
  assert (H200 : status_code (fst (demo_get "X")) = 200) by reflexivity.
  split; [exact H200|]. split; [reflexivity|].
  destruct (year_groups_partition demo_env (Some "X") H200)
    as (city & path & rows & Hc & _ & Hr & Hsum).
  injection Hc as <-. injection Hr as <-.
  apply Hsum; [repeat constructor|]. unfold int64_max. cbn. lia.
Defined.

(* ================================================================= *)
(** ** POST /heatwave: the date text and the calendar day *)

(** The parts of a day of an era. *)
Lemma day_of_era_parts (doe : Z) :
  0 <= doe <= 146096 ->
  let yoe := (doe - doe / 1460 + doe / 36524 - doe / 146096) / 365 in
  let doy := doe - (365 * yoe + yoe / 4 - yoe / 100) in
  0 <= yoe <= 399 /\ 0 <= doy <= 365
  /\ (doy = 365 -> (yoe + 1) mod 4 = 0
                  /\ ((yoe + 1) mod 100 <> 0 \/ (yoe + 1) mod 400 = 0)).
Proof.
  intros Hd. cbv zeta.
  repeat split; Z.div_mod_to_equations; lia.
Qed.

Lemma day_of_year_parts (doy : Z) :
  0 <= doy <= 365 ->
  let mp := (5 * doy + 2) / 153 in
  let d := doy - (153 * mp + 2) / 5 + 1 in
  0 <= mp <= 11 /\ 1 <= d <= 31
  /\ (mp = 1 \/ mp = 3 \/ mp = 6 \/ mp = 8 -> d <= 30)
  /\ (mp = 11 -> d <= 29 /\ (d = 29 -> doy = 365)).
Proof.
  intros Hd. cbv zeta.
  repeat split; Z.div_mod_to_equations; lia.
Qed.

Lemma is_leap_shift (yoe era : Z) :
  (yoe + 1) mod 4 = 0 ->
  (yoe + 1) mod 100 <> 0 \/ (yoe + 1) mod 400 = 0 ->
  is_leap (yoe + era * 400 + 1) = true.
Proof.
  intros H4 H100. unfold is_leap.
  destruct (Z.eqb_spec ((yoe + era * 400 + 1) mod 4) 0) as [_|Hn];
    [|exfalso; Z.div_mod_to_equations; lia].
  destruct (Z.eqb_spec ((yoe + era * 400 + 1) mod 100) 0) as [H|_];
    [|reflexivity].
  destruct (Z.eqb_spec ((yoe + era * 400 + 1) mod 400) 0) as [_|Hn];
    [reflexivity|].
  exfalso. Z.div_mod_to_equations. lia.
Qed.

(** Every day count is the day count of the calendar day it gives, and
    that calendar day has a month and a day of the month that exist. *)
Lemma days_round_trip (k : Z) :
  days_from_civil (civil_from_days k) = k
  /\ 1 <= c_month (civil_from_days k) <= 12
  /\ 1 <= c_day (civil_from_days k)
        <= days_in_month (c_year (civil_from_days k)) (c_month (civil_from_days k)).
Proof.
  unfold civil_from_days. cbv zeta.
  set (z := k + 719468).
  set (era := z / 146097).
  set (doe := z - era * 146097).
  assert (Hdoe : 0 <= doe <= 146096)
    by (subst doe era; Z.div_mod_to_equations; lia).
  destruct (day_of_era_parts doe Hdoe) as (Hyoe & Hdoy & Hleap). cbv zeta in *.
  set (yoe := (doe - doe / 1460 + doe / 36524 - doe / 146096) / 365) in *.
  set (doy := doe - (365 * yoe + yoe / 4 - yoe / 100)) in *.
  destruct (day_of_year_parts doy Hdoy) as (Hmp & Hd & H30 & H29). cbv zeta in *.
  set (mp := (5 * doy + 2) / 153) in *.
  set (d := doy - (153 * mp + 2) / 5 + 1) in *.
  unfold days_from_civil, days_in_month. cbn [c_year c_month c_day].
  destruct (Z.ltb_spec mp 10) as [Hlt|Hge].
  - (* March to December *)
    destruct (Z.leb_spec (mp + 3) 2); [lia|].
    destruct (Z.ltb_spec 2 (mp + 3)); [|lia].
    replace (mp + 3 - 3) with mp by ring.
    assert (Hera : (yoe + era * 400) / 400 = era)
      by (symmetry; apply (Z.div_unique_pos _ _ _ yoe); lia).
    rewrite Hera.
    replace (yoe + era * 400 - era * 400) with yoe by ring.
    split; [subst d doy doe z; lia|].
    split; [lia|].
    destruct (Z.eqb_spec (mp + 3) 2); [lia|].
    destruct (Z.eqb_spec (mp + 3) 4), (Z.eqb_spec (mp + 3) 6),
      (Z.eqb_spec (mp + 3) 9), (Z.eqb_spec (mp + 3) 11); cbn [orb]; lia.
  - (* January, February *)
    destruct (Z.leb_spec (mp - 9) 2); [|lia].
    destruct (Z.ltb_spec 2 (mp - 9)); [lia|].
    replace (mp - 9 + 9) with mp by ring.
    replace (yoe + era * 400 + 1 - 1) with (yoe + era * 400) by ring.
    assert (Hera : (yoe + era * 400) / 400 = era)
      by (symmetry; apply (Z.div_unique_pos _ _ _ yoe); lia).
    rewrite Hera.
    replace (yoe + era * 400 - era * 400) with yoe by ring.
    split; [subst d doy doe z; lia|].
    split; [lia|].
    destruct (Z.eqb_spec (mp - 9) 2) as [Hfeb|Hjan].
    + assert (Hmp11 : mp = 11) by lia.
      destruct (H29 Hmp11) as [Hd29 Hd365].
      destruct (is_leap (yoe + era * 400 + 1)) eqn:Hl; [lia|].
      assert (d <> 29); [|lia].
      intro Hd29e. specialize (Hd365 Hd29e). destruct (Hleap Hd365) as [H4 H100].
      rewrite (is_leap_shift yoe era H4 H100) in Hl. discriminate Hl.
    + destruct (Z.eqb_spec (mp - 9) 4), (Z.eqb_spec (mp - 9) 6),
        (Z.eqb_spec (mp - 9) 9), (Z.eqb_spec (mp - 9) 11); cbn [orb]; lia.
Qed.

(** The calendar day a time stamp falls on is a valid one. *)
Lemma civil_of_ns_valid (n : Z) :
  iNaT < n <= int64_max ->
  valid_civil (civil_of_ns n) = true
  /\ days_from_civil (civil_of_ns n) = n / ns_per_day.
Proof.
  intro Hn. unfold civil_of_ns.
  destruct (days_round_trip (n / ns_per_day)) as (Hrt & Hm & Hd).
  split; [|exact Hrt].
  assert (Hk : -106752 <= n / ns_per_day <= 106751).
  { unfold iNaT, int64_max, ns_per_day in *. Z.div_mod_to_equations. lia. }
  assert (Hd31 : c_day (civil_from_days (n / ns_per_day)) <= 31).
  { eapply Z.le_trans; [apply Hd|]. unfold days_in_month.
    destruct (_ =? 2); [destruct (is_leap _); lia|].
    destruct (_ || _); lia. }
  assert (Hy : 1 <= c_year (civil_from_days (n / ns_per_day)) <= 9999).
  { rewrite <- Hrt in Hk. revert Hk Hm Hd31 Hd.
    generalize (civil_from_days (n / ns_per_day)). intros [y m d].
    unfold days_from_civil. cbn [c_year c_month c_day]. intros Hk Hm Hd31 [Hd1 _].
    destruct (Z.leb_spec m 2), (Z.ltb_spec 2 m); try lia;
      Z.div_mod_to_equations; lia. }
  unfold valid_civil. rewrite !andb_true_iff, !Z.leb_le. lia.
Qed.

Lemma digit_char_inj (a b : Z) : digit_char a = digit_char b -> a mod 10 = b mod 10.
Proof.
  unfold digit_char. intro H. apply (f_equal nat_of_ascii) in H.
  pose proof (Z.mod_pos_bound a 10 ltac:(lia)) as Ha.
  pose proof (Z.mod_pos_bound b 10 ltac:(lia)) as Hb.
  rewrite !nat_ascii_embedding in H by lia. lia.
Qed.

(** Two calendar days with the same text are the same day. *)
Lemma strftime_ymd_inj (c1 c2 : civil) :
  valid_civil c1 = true -> valid_civil c2 = true ->
  strftime_ymd c1 = strftime_ymd c2 -> c1 = c2.
Proof.
  destruct c1 as [y1 m1 d1], c2 as [y2 m2 d2].
  unfold valid_civil. cbn [c_year c_month c_day].
  rewrite !andb_true_iff, !Z.leb_le.
  intros [[[[[Hy1 Hy1'] Hm1] Hm1'] Hd1] Hd1'] [[[[[Hy2 Hy2'] Hm2] Hm2'] Hd2] Hd2'].
  assert (Hb1 : d1 <= 31).
  { eapply Z.le_trans; [exact Hd1'|]. unfold days_in_month.
    destruct (_ =? 2); [destruct (is_leap _); lia|]. destruct (_ || _); lia. }
  assert (Hb2 : d2 <= 31).
  { eapply Z.le_trans; [exact Hd2'|]. unfold days_in_month.
    destruct (_ =? 2); [destruct (is_leap _); lia|]. destruct (_ || _); lia. }
  unfold strftime_ymd, pad4, pad2. cbn [c_year c_month c_day String.append].
  intro H.
  injection H as Ha Hb Hc Hd He Hf Hg Hh.
  apply digit_char_inj in Ha, Hb, Hc, Hd, He, Hf, Hg, Hh.
  assert (y1 = y2) by (Z.div_mod_to_equations; lia).
  assert (m1 = m2) by (Z.div_mod_to_equations; lia).
  assert (d1 = d2) by (Z.div_mod_to_equations; lia).
  subst. reflexivity.
Qed.

(** X12.  For a count of nanoseconds that fits a time stamp, supplied as
    a number or as a time stamp, the date text is that of a calendar day
    that exists (month 1-12, day within the month, leap years observed)
    and that contains the instant. *)
Theorem instant_rendered_as_its_day (E : Env) (n : Z) :
  iNaT < n <= int64_max ->
  exists c,
    formatted_date E (DNumeric n) = inr (strftime_ymd c)
    /\ formatted_date E (DTimestamp n) = inr (strftime_ymd c)
    /\ valid_civil c = true
    /\ days_from_civil c * ns_per_day <= n < (days_from_civil c + 1) * ns_per_day.
Proof.
  intro Hn. exists (civil_of_ns n).
  destruct (civil_of_ns_valid n Hn) as [Hv Hdays].
  split; [exact (formatted_date_numeric E n Hn)|].
  split; [reflexivity|]. split; [exact Hv|].
  rewrite Hdays. unfold ns_per_day. Z.div_mod_to_equations. lia.
Qed.

(** The last nanosecond of 29 February 2024. *)
Lemma instant_rendered_as_its_day_witness :
  iNaT < 1709251199999999999 <= int64_max
  /\ exists c, formatted_date demo_env (DNumeric 1709251199999999999)
               = inr (strftime_ymd c)
               /\ strftime_ymd c = "2024-02-29"
               /\ valid_civil c = true.
Proof.
  assert (Hn : iNaT < 1709251199999999999 <= int64_max)
    by (unfold iNaT, int64_max; lia).
  split; [exact Hn|].
  destruct (instant_rendered_as_its_day demo_env 1709251199999999999 Hn)
    as (c & Hnum & _ & Hv & _).
  exists c. split; [exact Hnum|]. split; [|exact Hv].
  assert (Hc : formatted_date demo_env (DNumeric 1709251199999999999)
               = inr "2024-02-29") by (vm_compute; reflexivity).
  rewrite Hnum in Hc. exact (inr_text_inj _ _ Hc).
Defined.

(** X13.  The date text tells calendar days apart: two counts of
    nanoseconds that fit a time stamp get the same date text exactly when
    they fall on the same day, and two valid native dates get the same
    text exactly when they are the same date. *)
Theorem date_text_identifies_day (E : Env) :
  (forall n1 n2 : Z,
      iNaT < n1 <= int64_max -> iNaT < n2 <= int64_max ->
      (formatted_date E (DNumeric n1) = formatted_date E (DNumeric n2)
       <-> n1 / ns_per_day = n2 / ns_per_day))
  /\ (forall c1 c2 : civil,
        valid_civil c1 = true -> valid_civil c2 = true ->
        (formatted_date E (DDatetime c1) = formatted_date E (DDatetime c2)
         <-> c1 = c2)).
Proof.
  split.
  - intros n1 n2 H1 H2.
    rewrite (formatted_date_numeric E n1 H1), (formatted_date_numeric E n2 H2).
    destruct (civil_of_ns_valid n1 H1) as [Hv1 Hd1].
    destruct (civil_of_ns_valid n2 H2) as [Hv2 Hd2].
    split.
    + intro H. apply inr_text_inj in H.
      apply (strftime_ymd_inj _ _ Hv1 Hv2) in H.
      rewrite <- Hd1, <- Hd2, H. reflexivity.
    + intro H. unfold civil_of_ns. rewrite H. reflexivity.
  - intros c1 c2 Hv1 Hv2. split.
    + intro H. unfold formatted_date, to_date_obj in H.
      cbn [isnull negb strftime] in H. apply inr_text_inj in H.
      exact (strftime_ymd_inj c1 c2 Hv1 Hv2 H).
    + intros ->. reflexivity.
Qed.

(** Noon and the last nanosecond of 1 July 2024 share their text; the
    first nanosecond of 2 July does not. *)
Lemma date_text_identifies_day_witness :
  iNaT < 1719835200000000000 <= int64_max
  /\ formatted_date demo_env (DNumeric 1719835200000000000)
     = formatted_date demo_env (DNumeric 1719878399999999999)
  /\ formatted_date demo_env (DNumeric 1719878399999999999)
     <> formatted_date demo_env (DNumeric 1719878400000000000).
Proof.
  assert (H1 : iNaT < 1719835200000000000 <= int64_max)
    by (unfold iNaT, int64_max; lia).
  assert (H2 : iNaT < 1719878399999999999 <= int64_max)
    by (unfold iNaT, int64_max; lia).
  assert (H3 : iNaT < 1719878400000000000 <= int64_max)
    by (unfold iNaT, int64_max; lia).
  destruct (date_text_identifies_day demo_env) as [Hnum _].
  split; [exact H1|]. split.
  - apply (Hnum _ _ H1 H2). reflexivity.
  - intro H. apply (Hnum _ _ H2 H3) in H. vm_compute in H. discriminate H.
Defined.
